(** * Crownstone UART host driver: connection supervisor and message dispatch

    A shallow embedding of
      - [crownstone_uart/core/uart/UartParser.py]  (frame validation and
        opcode dispatch), and
      - [crownstone_uart/core/uart/UartManager.py] (port discovery, handshake,
        retry and liveness supervision),
    followed by the properties established about them.

    Python effects are made explicit.  A handler of the parser returns the list
    of effects it performed (log records, bus emissions, console prints), in
    order, together with its outcome (normal return or a raised exception).
    The manager threads an explicit state; its unbounded retry recursion is cut
    by a fuel argument. *)

From Stdlib Require Import ZArith List String Ascii Bool Lia.
From Stdlib.Strings Require Import Byte.
Import ListNotations.
Set Warnings "-register-all".
Open Scope string_scope.
Open Scope list_scope.
Open Scope Z_scope.

(* ------------------------------------------------------------------------- *)
(** ** Python values, exceptions and outcomes *)

(** Exceptions are split by what [except CrownstoneException] can tell apart:
    an instance of [CrownstoneException] (or of a subclass), and every other
    exception class, kept with its class name. *)
Inductive exn : Type :=
| CrownstoneException (msg : string)
| PyException (cls : string) (msg : string).

Inductive result (A : Type) : Type :=
| Return (a : A)
| Raise (e : exn).
Arguments Return {A} a.
Arguments Raise {A} e.

(** The Python values that travel over the event bus.  An instance of a
    collaborator class is a class name with its attributes. *)
Inductive Value : Type :=
| VNone
| VInt (z : Z)
| VStr (s : string)
| VBytes (b : list byte)
| VList (l : list Value)
| VTuple (l : list Value)
| VDict (l : list (string * Value))
| VObj (cls : string) (attrs : list (string * Value)).

(** [getattr(v, name)], where [None] stands for [hasattr(v, name) == False]. *)
Fixpoint assoc (name : string) (l : list (string * Value)) : option Value :=
  match l with
  | [] => None
  | (k, v) :: r => if String.eqb k name then Some v else assoc name r
  end.

Definition getattr (v : Value) (name : string) : option Value :=
  match v with
  | VObj _ attrs => assoc name attrs
  | _ => None
  end.

Definition hasattr (v : Value) (name : string) : bool :=
  match getattr v name with Some _ => true | None => false end.

(** [v != ""] *)
Definition ne_empty_str (v : Value) : bool :=
  match v with
  | VStr EmptyString => false
  | _ => true
  end.

(* ------------------------------------------------------------------------- *)
(** ** Topics, log records and effects *)

Inductive Topic : Type :=
| SystemTopics_uartNewPackage
| SystemTopics_uartNewMessage
| SystemTopics_resultPacket
| SystemTopics_meshResultPacket
| SystemTopics_meshResultFinalPacket
| SystemTopics_stateUpdate
| UartTopics_hello
| UartTopics_uartMessage
| UartTopics_log
| UartTopics_logArray
| UartTopics_assetTrackingReport
| UartTopics_assetIdReport
| DevTopics_newServiceData
| DevTopics_ownCrownstoneId
| DevTopics_ownMacAddress
| DevTopics_newAdcConfigPacket
| DevTopics_adcRestarted
| DevTopics_newCurrentData
| DevTopics_newVoltageData
| DevTopics_newFilteredCurrentData
| DevTopics_newFilteredVoltageData
| DevTopics_newCalculatedPowerData.

Inductive Level : Type := DEBUG | INFO | WARNING | ERROR.

(** What a log call interpolates into (or passes along with) its message. *)
Inductive LogData : Type :=
| NoData
| DInt (z : Z)
| DVersion (major minor : Z)
| DBytes (b : list byte)
| DValue (v : Value)
| DExn (e : exn).

Inductive Effect : Type :=
| Log (lvl : Level) (msg : string) (data : LogData)
| Emit (topic : Topic) (v : Value)
| Print (line : string).

Definition is_emit (e : Effect) : bool :=
  match e with Emit _ _ => true | _ => false end.

Definition is_log (e : Effect) : bool :=
  match e with Log _ _ _ => true | _ => false end.

(** The emissions of a run, in order: what an observer of the bus sees. *)
Definition bus_events (t : list Effect) : list Effect := filter is_emit t.

Definition Topic_eq_dec (a b : Topic) : {a = b} + {a <> b}.
Proof. decide equality. Defined.

Definition Topic_eqb (a b : Topic) : bool :=
  if Topic_eq_dec a b then true else false.

(** The values emitted on one topic, in order. *)
Definition emitted_on (topic : Topic) (t : list Effect) : list Value :=
  flat_map (fun e => match e with
                     | Emit tp v => if Topic_eqb tp topic then [v] else []
                     | _ => []
                     end) t.

(* ------------------------------------------------------------------------- *)
(** ** The effect monad of the handlers *)

Definition M (A : Type) : Type := (list Effect * result A)%type.

Definition ret {A} (a : A) : M A := ([], Return a).

Definition bind {A B} (c : M A) (k : A -> M B) : M B :=
  match c with
  | (t, Return a) => let (t', r) := k a in (t ++ t', r)
  | (t, Raise e) => (t, Raise e)
  end.

Declare Scope py_scope.
Delimit Scope py_scope with py.
Notation "x <- c ;; k" := (bind c (fun x => k))
  (at level 61, c at next level, right associativity) : py_scope.
Notation "c ;; k" := (bind c (fun _ => k))
  (at level 61, right associativity) : py_scope.
Open Scope py_scope.

Definition pass : M unit := ret tt.

Definition log (lvl : Level) (msg : string) (data : LogData) : M unit :=
  ([Log lvl msg data], Return tt).

Definition print (line : string) : M unit := ([Print line], Return tt).

(** Calling a collaborator: no effect of its own, it returns or raises. *)
Definition call {A} (r : result A) : M A := ([], r).

Definition trace {A} (c : M A) : list Effect := fst c.
Definition outcome {A} (c : M A) : result A := snd c.

(* ------------------------------------------------------------------------- *)
(** ** Protocol constants

    [UartTypes.py] and [UartWrapperPacket.py] are not part of the sources at
    hand: the enumerations are kept symbolic and their numbering is a
    parameter of the development. *)

Module UartRxType.
Inductive t : Type :=
| HELLO | SESSION_NONCE | HEARTBEAT | STATUS | RESULT_PACKET
| ERR_REPLY_PARSING_FAILED | ERR_REPLY_STATUS
| ERR_REPLY_SESSION_NONCE_MISSING | ERR_REPLY_DECRYPTION_FAILED
| UART_MESSAGE | SESSION_NONCE_MISSING | OWN_SERVICE_DATA | PRESENCE_CHANGE
| FACTORY_RESET | BOOTED | HUB_DATA | MESH_SERVICE_DATA
| EXTERNAL_STATE_PART_0 | EXTERNAL_STATE_PART_1 | MESH_RESULT
| MESH_ACK_ALL_RESULT | RSSI_PING_MESSAGE | LOG | LOG_ARRAY
| ASSET_MAC_RSSI_REPORT | ASSET_ID_RSSI_REPORT
| INTERNAL_EVENT | MESH_CMD_TIME | MESH_PROFILE_LOCATION
| MESH_SET_BEHAVIOUR_SETTINGS | MESH_TRACKED_DEVICE_REGISTER
| MESH_TRACKED_DEVICE_TOKEN | MESH_SYNC_REQUEST
| MESH_TRACKED_DEVICE_HEARTBEAT
| ADVERTISING_ENABLED | MESH_ENABLED | CROWNSTONE_ID | MAC_ADDRESS
| ADC_CONFIG | ADC_RESTART | POWER_LOG_CURRENT | POWER_LOG_VOLTAGE
| POWER_LOG_FILTERED_CURRENT | POWER_LOG_FILTERED_VOLTAGE | POWER_LOG_POWER
| ASCII_LOG | FIRMWARESTATE.

Definition eq_dec (a b : t) : {a = b} + {a <> b}.
Proof. decide equality. Defined.

Definition eqb (a b : t) : bool := if eq_dec a b then true else false.

(** Every member, in the order the dispatcher tests them. *)
Definition members : list t :=
  [ HELLO; SESSION_NONCE; HEARTBEAT; STATUS; RESULT_PACKET;
    ERR_REPLY_PARSING_FAILED; ERR_REPLY_STATUS;
    ERR_REPLY_SESSION_NONCE_MISSING; ERR_REPLY_DECRYPTION_FAILED;
    UART_MESSAGE; SESSION_NONCE_MISSING; OWN_SERVICE_DATA; PRESENCE_CHANGE;
    FACTORY_RESET; BOOTED; HUB_DATA; MESH_SERVICE_DATA;
    EXTERNAL_STATE_PART_0; EXTERNAL_STATE_PART_1; MESH_RESULT;
    MESH_ACK_ALL_RESULT; RSSI_PING_MESSAGE; LOG; LOG_ARRAY;
    ASSET_MAC_RSSI_REPORT; ASSET_ID_RSSI_REPORT;
    INTERNAL_EVENT; MESH_CMD_TIME; MESH_PROFILE_LOCATION;
    MESH_SET_BEHAVIOUR_SETTINGS; MESH_TRACKED_DEVICE_REGISTER;
    MESH_TRACKED_DEVICE_TOKEN; MESH_SYNC_REQUEST;
    MESH_TRACKED_DEVICE_HEARTBEAT;
    ADVERTISING_ENABLED; MESH_ENABLED; CROWNSTONE_ID; MAC_ADDRESS;
    ADC_CONFIG; ADC_RESTART; POWER_LOG_CURRENT; POWER_LOG_VOLTAGE;
    POWER_LOG_FILTERED_CURRENT; POWER_LOG_FILTERED_VOLTAGE; POWER_LOG_POWER;
    ASCII_LOG; FIRMWARESTATE ].

(** The four error replies the dispatcher names. *)
Definition is_err_reply (x : t) : bool :=
  match x with
  | ERR_REPLY_PARSING_FAILED | ERR_REPLY_STATUS
  | ERR_REPLY_SESSION_NONCE_MISSING | ERR_REPLY_DECRYPTION_FAILED => true
  | _ => false
  end.
End UartRxType.

Module UartMessageType.
Inductive t : Type := UART_MESSAGE | ENCRYPTED_UART_MESSAGE.
End UartMessageType.

(** The numbering of the protocol. *)
Record Protocol : Type := {
  PROTOCOL_MAJOR : Z;
  rx : UartRxType.t -> Z;          (* the value of a [UartRxType] member *)
  mt : UartMessageType.t -> Z      (* the value of a [UartMessageType] member *)
}.

(** [9900 < opCode < 10000] *)
Definition err_reply_range (opCode : Z) : bool :=
  (9900 <? opCode) && (opCode <? 10000).

Fixpoint distinct (l : list Z) : bool :=
  match l with
  | [] => true
  | x :: r => negb (existsb (Z.eqb x) r) && distinct r
  end.

(** What an enumeration table is expected to satisfy: members have pairwise
    different values, and no member other than an error reply is numbered
    inside the range the dispatcher reserves for error replies. *)
Definition well_numbered (P : Protocol) : bool :=
  distinct (map (rx P) UartRxType.members)
  && forallb (fun x => UartRxType.is_err_reply x || negb (err_reply_range (rx P x)))
             UartRxType.members
  && negb (mt P UartMessageType.UART_MESSAGE =? mt P UartMessageType.ENCRYPTED_UART_MESSAGE).

(* ------------------------------------------------------------------------- *)
(** ** Packets *)

(** [UartWrapperPacket]: the fields [parse] reads. *)
Record UartWrapperPacket : Type := {
  protocolMajor : Z;
  protocolMinor : Z;
  messageType : Z;
  wrapperPayload : list byte
}.

(** [UartMessagePacket] *)
Record UartMessagePacket : Type := {
  opCode : Z;
  payload : list byte
}.

Definition message_value (m : UartMessagePacket) : Value :=
  VObj "UartMessagePacket" [("opCode", VInt (opCode m)); ("payload", VBytes (payload m))].

(** What may arrive on [SystemTopics.uartNewPackage]: Python does not type the
    argument of the callback. *)
Inductive PyArg : Type :=
| AWrapperPacket (w : UartWrapperPacket)
| AOther (typeName : string).

(* ------------------------------------------------------------------------- *)
(** ** Collaborators

    The payload decoders live in [crownstone_core] and in [uartPackets/]; the
    dispatcher only calls them.  Each is a function of the payload that returns
    a value or raises.  [X_getDict p] stands for [X(p).getDict()], and
    [ServiceData_payload p] for constructing [ServiceData(p)], calling its
    [parse()] and reading its [payload]. *)
Record Collaborators : Type := {
  UartMessagePacket_parse : list byte -> option UartMessagePacket;
  UartCrownstoneHelloPacket : list byte -> result Value;
  ResultPacket : list byte -> result Value;
  ServiceData_payload : list byte -> result Value;
  parseOpcode7 : list byte -> result Value;
  UartLogPacket : list byte -> result Value;
  UartLogArrayPacket : list byte -> result Value;
  AssetMacReport : list byte -> result Value;
  AssetIdReport : list byte -> result Value;
  int8_to_uint8 : list byte -> result Value;
  uint8_array_to_address : list byte -> result Value;
  AdcConfigPacket_getDict : list byte -> result Value;
  CurrentSamplesPacket_getDict : list byte -> result Value;
  VoltageSamplesPacket_getDict : list byte -> result Value;
  PowerCalculationPacket_getDict : list byte -> result Value;
  (** What the other subscribers of a topic make [UartEventBus.emit] raise to
      its caller, if anything. *)
  subscribers : Topic -> Value -> option exn;
  (** [datetime.datetime.now().strftime(self.timestampFormat)] *)
  now : string
}.

(* ------------------------------------------------------------------------- *)
(** ** Small pieces of Python *)

Definition byte_val (b : byte) : Z := Z.of_N (Byte.to_N b).

(** [chr(byte)], as a one-character string. *)
Definition chr (b : byte) : string := String (ascii_of_byte b) EmptyString.

(** [payload[i]] *)
Definition getitem (l : list byte) (i : nat) : result byte :=
  match nth_error l i with
  | Some b => Return b
  | None => Raise (PyException "IndexError" "list index out of range")
  end.

(** [str.isspace] on the characters a Latin-1 string can hold. *)
Definition isspace (c : ascii) : bool :=
  let n := Z.of_N (N_of_ascii c) in
  ((9 <=? n) && (n <=? 13)) || ((28 <=? n) && (n <=? 32))
  || (n =? 133) || (n =? 160).

(** [s.rstrip()] *)
Fixpoint rstrip (s : string) : string :=
  match s with
  | EmptyString => EmptyString
  | String c r =>
      match rstrip r with
      | EmptyString => if isspace c then EmptyString else String c EmptyString
      | r' => String c r'
      end
  end.

(* ------------------------------------------------------------------------- *)
(** ** UartParser *)

Section UartParser.

Variable P : Protocol.
Variable C : Collaborators.

(** [UartEventBus.emit(topic, value)] as the dispatcher sees it: the value
    goes out on the topic, and whatever a subscriber lets escape comes back
    to the caller. *)
Definition emit (topic : Topic) (v : Value) : M unit :=
  ([Emit topic v],
   match subscribers C topic v with
   | Some e => Raise e
   | None => Return tt
   end).

(** The [for byte in payload: stringResult += chr(byte)] loop. *)
Definition chr_all (p : list byte) : string :=
  fold_left (fun acc b => (acc ++ chr b)%string) p "".

(** The same loop under [if byte < 128]. *)
Definition chr_ascii (p : list byte) : string :=
  fold_left (fun acc b => if byte_val b <? 128 then (acc ++ chr b)%string else acc) p "".

Definition _handleUartMessage (messagePacket : UartMessagePacket) : M unit :=
  let opCode := opCode messagePacket in
  let payload := payload messagePacket in
  let op_is (x : UartRxType.t) : bool := opCode =? rx P x in
  if op_is UartRxType.HELLO then
    helloPacket <- call (UartCrownstoneHelloPacket C payload) ;;
    emit UartTopics_hello helloPacket
  else if op_is UartRxType.SESSION_NONCE then
    log DEBUG "Received SESSION_NONCE" NoData
  else if op_is UartRxType.HEARTBEAT then
    log DEBUG "Received HEARTBEAT" NoData
  else if op_is UartRxType.STATUS then
    log DEBUG "Received STATUS" NoData
  else if op_is UartRxType.RESULT_PACKET then
    packet <- call (ResultPacket C payload) ;;
    emit SystemTopics_resultPacket packet
  (* Error replies *)
  else if op_is UartRxType.ERR_REPLY_PARSING_FAILED then
    log DEBUG "Received ERR_REPLY_PARSING_FAILED" NoData
  else if op_is UartRxType.ERR_REPLY_STATUS then
    log DEBUG "Received ERR_REPLY_STATUS" NoData
  else if op_is UartRxType.ERR_REPLY_SESSION_NONCE_MISSING then
    log DEBUG "Received ERR_REPLY_SESSION_NONCE_MISSING" NoData
  else if op_is UartRxType.ERR_REPLY_DECRYPTION_FAILED then
    log DEBUG "Received ERR_REPLY_DECRYPTION_FAILED" NoData
  else if err_reply_range opCode then
    log DEBUG "Received ERR_REPLY " (DInt opCode)
  (* Events *)
  else if op_is UartRxType.UART_MESSAGE then
    let stringResult := chr_all payload in
    emit UartTopics_uartMessage
         (VDict [("string", VStr stringResult); ("data", VBytes payload)])
  else if op_is UartRxType.SESSION_NONCE_MISSING then
    log DEBUG "Received SESSION_NONCE_MISSING" NoData
  else if op_is UartRxType.OWN_SERVICE_DATA then
    serviceData <- call (ServiceData_payload C payload) ;;
    emit DevTopics_newServiceData serviceData
  else if op_is UartRxType.PRESENCE_CHANGE then pass
  else if op_is UartRxType.FACTORY_RESET then pass
  else if op_is UartRxType.BOOTED then
    log DEBUG "Received BOOTED" NoData
  else if op_is UartRxType.HUB_DATA then pass
  else if op_is UartRxType.MESH_SERVICE_DATA then
    result <- call (parseOpcode7 C payload) ;;
    log DEBUG "Received service data: " (DValue result) ;;
    match getattr result "crownstoneId" with
    | Some crownstoneId =>
        emit SystemTopics_stateUpdate (VTuple [crownstoneId; result])
    | None => pass
    end
  else if op_is UartRxType.EXTERNAL_STATE_PART_0 then pass
  else if op_is UartRxType.EXTERNAL_STATE_PART_1 then pass
  else if op_is UartRxType.MESH_RESULT then
    if (1 <? Z.of_nat (List.length payload)) then
      crownstoneId <- call (getitem payload 0) ;;
      packet <- call (ResultPacket C (skipn 1 payload)) ;;
      emit SystemTopics_meshResultPacket
           (VList [VInt (byte_val crownstoneId); packet])
    else pass
  else if op_is UartRxType.MESH_ACK_ALL_RESULT then
    packet <- call (ResultPacket C payload) ;;
    emit SystemTopics_meshResultFinalPacket packet
  else if op_is UartRxType.RSSI_PING_MESSAGE then pass
  else if op_is UartRxType.LOG then
    log DEBUG "Received binary log: " (DBytes payload) ;;
    packet <- call (UartLogPacket C payload) ;;
    emit UartTopics_log packet
  else if op_is UartRxType.LOG_ARRAY then
    log DEBUG "Received binary log array: " (DBytes payload) ;;
    packet <- call (UartLogArrayPacket C payload) ;;
    emit UartTopics_logArray packet
  (* Asset filter events *)
  else if op_is UartRxType.ASSET_MAC_RSSI_REPORT then
    log DEBUG "Received ASSET_MAC_RSSI_REPORT: " (DBytes payload) ;;
    packet <- call (AssetMacReport C payload) ;;
    emit UartTopics_assetTrackingReport packet
  else if op_is UartRxType.ASSET_ID_RSSI_REPORT then
    log DEBUG "Received ASSET_ID_RSSI_REPORT: " (DBytes payload) ;;
    packet <- call (AssetIdReport C payload) ;;
    emit UartTopics_assetIdReport packet
  (* Developer events *)
  else if op_is UartRxType.INTERNAL_EVENT then pass
  else if op_is UartRxType.MESH_CMD_TIME then pass
  else if op_is UartRxType.MESH_PROFILE_LOCATION then pass
  else if op_is UartRxType.MESH_SET_BEHAVIOUR_SETTINGS then pass
  else if op_is UartRxType.MESH_TRACKED_DEVICE_REGISTER then pass
  else if op_is UartRxType.MESH_TRACKED_DEVICE_TOKEN then pass
  else if op_is UartRxType.MESH_SYNC_REQUEST then pass
  else if op_is UartRxType.MESH_TRACKED_DEVICE_HEARTBEAT then pass
  (* Debug build events *)
  else if op_is UartRxType.ADVERTISING_ENABLED then pass
  else if op_is UartRxType.MESH_ENABLED then pass
  else if op_is UartRxType.CROWNSTONE_ID then
    id <- call (int8_to_uint8 C payload) ;;
    emit DevTopics_ownCrownstoneId id
  else if op_is UartRxType.MAC_ADDRESS then
    addr <- call (uint8_array_to_address C payload) ;;
    if ne_empty_str addr then emit DevTopics_ownMacAddress addr
    else log WARNING "invalid address:" (DBytes payload)
  else if op_is UartRxType.ADC_CONFIG then
    parsedData <- call (AdcConfigPacket_getDict C payload) ;;
    emit DevTopics_newAdcConfigPacket parsedData
  else if op_is UartRxType.ADC_RESTART then
    emit DevTopics_adcRestarted VNone
  else if op_is UartRxType.POWER_LOG_CURRENT then
    parsedData <- call (CurrentSamplesPacket_getDict C payload) ;;
    emit DevTopics_newCurrentData parsedData
  else if op_is UartRxType.POWER_LOG_VOLTAGE then
    parsedData <- call (VoltageSamplesPacket_getDict C payload) ;;
    emit DevTopics_newVoltageData parsedData
  else if op_is UartRxType.POWER_LOG_FILTERED_CURRENT then
    parsedData <- call (CurrentSamplesPacket_getDict C payload) ;;
    emit DevTopics_newFilteredCurrentData parsedData
  else if op_is UartRxType.POWER_LOG_FILTERED_VOLTAGE then
    parsedData <- call (VoltageSamplesPacket_getDict C payload) ;;
    emit DevTopics_newFilteredVoltageData parsedData
  else if op_is UartRxType.POWER_LOG_POWER then
    parsedData <- call (PowerCalculationPacket_getDict C payload) ;;
    emit DevTopics_newCalculatedPowerData parsedData
  else if op_is UartRxType.ASCII_LOG then
    let timestamp := now C in
    let stringResult := chr_ascii payload in
    let logStr := ("ASCII LOG: [" ++ timestamp ++ "] " ++ stringResult)%string in
    print (rstrip logStr)
  else if op_is UartRxType.FIRMWARESTATE then pass
  else
    log DEBUG "Unknown opCode: " (DInt opCode).

(** [try: self._handleUartMessage(...) except CrownstoneException as e: ...] *)
Definition handleUartMessage (messagePacket : UartMessagePacket) : M unit :=
  match _handleUartMessage messagePacket with
  | (t, Raise (CrownstoneException msg)) =>
      (t ++ [Log ERROR "Parse error: " (DExn (CrownstoneException msg))], Return tt)
  | r => r
  end.

(** [UartEventBus.emit(SystemTopics.uartNewMessage, uartMsg)]: the parser
    itself is subscribed to this topic with [handleUartMessage] (see
    [__init__]), so the emission runs the opcode dispatch before the other
    subscribers. *)
Definition emit_uartNewMessage (uartMsg : UartMessagePacket) : M unit :=
  ([Emit SystemTopics_uartNewMessage (message_value uartMsg)], Return tt) ;;
  handleUartMessage uartMsg ;;
  call (match subscribers C SystemTopics_uartNewMessage (message_value uartMsg) with
        | Some e => Raise e
        | None => Return tt
        end).

Definition parse (wrapperPacket : PyArg) : M unit :=
  match wrapperPacket with
  | AOther typeName =>
      call (Raise (PyException "TypeError" ("Invalid type: " ++ typeName)))
  | AWrapperPacket w =>
      if negb (protocolMajor w =? PROTOCOL_MAJOR P) then
        log WARNING "Unknown protocol: " (DVersion (protocolMajor w) (protocolMinor w))
      else
        let msgType := messageType w in
        if msgType =? mt P UartMessageType.UART_MESSAGE then
          match UartMessagePacket_parse C (wrapperPayload w) with
          | Some uartMsg => emit_uartNewMessage uartMsg
          | None => pass
          end
        else if msgType =? mt P UartMessageType.ENCRYPTED_UART_MESSAGE then
          log INFO "Received encrypted msg: decryption is not implemented." NoData
        else
          log WARNING "Unknown message type: " (DInt msgType)
  end.

(** Frames and messages arrive one after another; an exception that escapes
    a callback ends the run. *)
Fixpoint handle_all (msgs : list UartMessagePacket) : M unit :=
  match msgs with
  | [] => ret tt
  | m :: r => handleUartMessage m ;; handle_all r
  end.

End UartParser.

(* ------------------------------------------------------------------------- *)
(** ** UartManager *)

(** The device identifier of a serial port ([ListPortInfo.device]). *)
Definition Device : Type := string.

(** An event loop, by identity. *)
Definition Loop : Type := nat.

(** A [UartBridge(port, baudRate)] instance. *)
Record UartBridge : Type := {
  bridge_port : Device;
  bridge_baudRate : Z
}.

(** What [asyncio.ensure_future] is given. *)
Inductive Task : Type := TrackConnection | Reset.

(** What the manager does to the outside, in order. *)
Inductive Event : Type :=
| EvComports (ports : list Device)            (* list_ports.comports() *)
| EvBridgeNew (port : Device) (baud : Z)      (* UartBridge(port, baudRate) *)
| EvBridgeStart (port : Device)               (* bridge.start() *)
| EvBridgeStarting (port : Device)            (* await bridge.starting() *)
| EvHandshake (port : Device) (success : bool)(* await bridge.handshake() *)
| EvBridgeStop (port : Device)                (* await bridge.stop() *)
| EvBridgeStopSync (port : Device)            (* bridge.stop_sync() *)
| EvIsAlive (port : Device)                   (* await bridge.isAlive() *)
| EvSleep (seconds : Z)                       (* await asyncio.sleep(seconds) *)
| EvLogger (lvl : Level) (msg : string)
| EvEnsureFuture (task : Task).               (* asyncio.ensure_future(task) *)

(** Modelled from the spec: [UartBridge.py] is not among the sources, and the
    transport contract reads "handshake(): suspends until either an affirmative
    handshake reply or a failure/timeout; returns success/failure, never an
    exception for the failed case".  The surroundings of the manager are what
    the operating system enumerates at the n-th call of
    [list_ports.comports()], whether the n-th handshake of the run, made on a
    bridge to the given port, is answered, and the loop that
    [asyncio.get_running_loop()] returns.  Constructing, starting and stopping
    a bridge are recorded as events and do not raise. *)
Record World : Type := {
  comports : nat -> list Device;
  handshake : nat -> Device -> bool;
  get_running_loop : Loop
}.

(** The attributes of a [UartManager], and the bookkeeping of the run: how
    often the ports were enumerated, how many handshakes were made, and the
    events so far (oldest first). *)
Record UartManager : Type := {
  port : option Device;
  baudRate : Z;
  running : bool;
  _trackingLoop : option Loop;
  _availablePorts : list Device;
  _attemptingIndex : nat;
  _uartBridge : option UartBridge;
  ready : bool;
  enumerations : nat;
  handshakes : nat;
  history : list Event
}.

Definition set_port (v : option Device) (s : UartManager) : UartManager :=
  {| port := v; baudRate := baudRate s; running := running s;
     _trackingLoop := _trackingLoop s; _availablePorts := _availablePorts s;
     _attemptingIndex := _attemptingIndex s; _uartBridge := _uartBridge s;
     ready := ready s; enumerations := enumerations s;
     handshakes := handshakes s; history := history s |}.

Definition set_baudRate (v : Z) (s : UartManager) : UartManager :=
  {| port := port s; baudRate := v; running := running s;
     _trackingLoop := _trackingLoop s; _availablePorts := _availablePorts s;
     _attemptingIndex := _attemptingIndex s; _uartBridge := _uartBridge s;
     ready := ready s; enumerations := enumerations s;
     handshakes := handshakes s; history := history s |}.

Definition set_running (v : bool) (s : UartManager) : UartManager :=
  {| port := port s; baudRate := baudRate s; running := v;
     _trackingLoop := _trackingLoop s; _availablePorts := _availablePorts s;
     _attemptingIndex := _attemptingIndex s; _uartBridge := _uartBridge s;
     ready := ready s; enumerations := enumerations s;
     handshakes := handshakes s; history := history s |}.

Definition set_trackingLoop (v : option Loop) (s : UartManager) : UartManager :=
  {| port := port s; baudRate := baudRate s; running := running s;
     _trackingLoop := v; _availablePorts := _availablePorts s;
     _attemptingIndex := _attemptingIndex s; _uartBridge := _uartBridge s;
     ready := ready s; enumerations := enumerations s;
     handshakes := handshakes s; history := history s |}.

Definition set_availablePorts (v : list Device) (s : UartManager) : UartManager :=
  {| port := port s; baudRate := baudRate s; running := running s;
     _trackingLoop := _trackingLoop s; _availablePorts := v;
     _attemptingIndex := _attemptingIndex s; _uartBridge := _uartBridge s;
     ready := ready s; enumerations := enumerations s;
     handshakes := handshakes s; history := history s |}.

Definition set_attemptingIndex (v : nat) (s : UartManager) : UartManager :=
  {| port := port s; baudRate := baudRate s; running := running s;
     _trackingLoop := _trackingLoop s; _availablePorts := _availablePorts s;
     _attemptingIndex := v; _uartBridge := _uartBridge s;
     ready := ready s; enumerations := enumerations s;
     handshakes := handshakes s; history := history s |}.

Definition set_uartBridge (v : option UartBridge) (s : UartManager) : UartManager :=
  {| port := port s; baudRate := baudRate s; running := running s;
     _trackingLoop := _trackingLoop s; _availablePorts := _availablePorts s;
     _attemptingIndex := _attemptingIndex s; _uartBridge := v;
     ready := ready s; enumerations := enumerations s;
     handshakes := handshakes s; history := history s |}.

Definition set_ready (v : bool) (s : UartManager) : UartManager :=
  {| port := port s; baudRate := baudRate s; running := running s;
     _trackingLoop := _trackingLoop s; _availablePorts := _availablePorts s;
     _attemptingIndex := _attemptingIndex s; _uartBridge := _uartBridge s;
     ready := v; enumerations := enumerations s;
     handshakes := handshakes s; history := history s |}.

(** Append events to the history. *)
Definition record (evs : list Event) (s : UartManager) : UartManager :=
  {| port := port s; baudRate := baudRate s; running := running s;
     _trackingLoop := _trackingLoop s; _availablePorts := _availablePorts s;
     _attemptingIndex := _attemptingIndex s; _uartBridge := _uartBridge s;
     ready := ready s; enumerations := enumerations s;
     handshakes := handshakes s; history := history s ++ evs |}.

Definition count_enumeration (s : UartManager) : UartManager :=
  {| port := port s; baudRate := baudRate s; running := running s;
     _trackingLoop := _trackingLoop s; _availablePorts := _availablePorts s;
     _attemptingIndex := _attemptingIndex s; _uartBridge := _uartBridge s;
     ready := ready s; enumerations := S (enumerations s);
     handshakes := handshakes s; history := history s |}.

Definition count_handshake (s : UartManager) : UartManager :=
  {| port := port s; baudRate := baudRate s; running := running s;
     _trackingLoop := _trackingLoop s; _availablePorts := _availablePorts s;
     _attemptingIndex := _attemptingIndex s; _uartBridge := _uartBridge s;
     ready := ready s; enumerations := enumerations s;
     handshakes := S (handshakes s); history := history s |}.

(** How a coroutine of the manager ends. *)
Inductive Outcome : Type :=
| Returned (s : UartManager)
| Raised (e : exn) (s : UartManager)
| OutOfFuel.

(** The default of the [baudrate] parameter of [initialize]. *)
Definition default_baudrate : Z := 230400.

Section UartManager.

Variable W : World.

(** [list(list_ports.comports())] *)
Definition list_comports (s : UartManager) : list Device * UartManager :=
  let ports := comports W (enumerations s) in
  (ports, count_enumeration (record [EvComports ports] s)).

Definition __init__ (loop : option Loop) : UartManager :=
  let s0 := {| port := None; baudRate := 230400; running := true;
               _trackingLoop := loop; _availablePorts := [];
               _attemptingIndex := 0; _uartBridge := None; ready := false;
               enumerations := 0; handshakes := 0; history := [] |} in
  let (ports, s1) := list_comports s0 in
  set_availablePorts ports s1.

(** The assignments of [reset], before its [await self.initialize()]. *)
Definition reset_fields (s : UartManager) : UartManager :=
  let s := set_attemptingIndex 0 s in
  let (ports, s) := list_comports s in
  let s := set_availablePorts ports s in
  let s := set_uartBridge None s in
  set_port None s.

Definition stop (s : UartManager) : UartManager :=
  let s := set_running false s in
  match _uartBridge s with
  | Some bridge => record [EvBridgeStopSync (bridge_port bridge)] s
  | None => s
  end.

(** The [for testPort in self._availablePorts] loop of [initialize]: the
    index of the first candidate whose device is [port]. *)
Fixpoint find_port (port : Device) (ports : list Device) (index : nat) : option nat :=
  match ports with
  | [] => None
  | testPort :: rest =>
      if String.eqb port testPort then Some index
      else find_port port rest (S index)
  end.

(** [setupConnection], given what [self.initialize] does. *)
Definition setupConnection_with
    (initialize : option Device -> Z -> UartManager -> Outcome)
    (port : Device) (handshake_arg : bool) (s : UartManager) : Outcome :=
  let bridge := {| bridge_port := port; bridge_baudRate := baudRate s |} in
  let s := set_uartBridge (Some bridge) (record [EvBridgeNew port (baudRate s)] s) in
  let s := record [EvBridgeStart port] s in
  let s := record [EvBridgeStarting port] s in
  let success_s :=
    if handshake_arg then
      let success := handshake W (handshakes s) port in
      (success, count_handshake (record [EvHandshake port success] s))
    else (true, s) in
  let (success, s) := success_s in
  if negb success then
    let s := set_attemptingIndex (S (_attemptingIndex s)) s in
    let s := set_ready false s in
    let s := record [EvBridgeStop port] s in
    initialize None default_baudrate s
  else
    let s := record [EvLogger INFO ("Connection established to " ++ port)] s in
    let s := set_port (Some port) s in
    let s := set_ready true s in
    Returned (record [EvEnsureFuture TrackConnection] s).

(** [_attemptConnection], given [setupConnection]. *)
Definition _attemptConnection_with
    (setupConnection : Device -> bool -> UartManager -> Outcome)
    (index : nat) (handshake_arg : bool) (s : UartManager) : Outcome :=
  match nth_error (_availablePorts s) index with
  | Some attemptingPort => setupConnection attemptingPort handshake_arg s
  | None => Raised (PyException "IndexError" "list index out of range") s
  end.

(** The second half of [initialize], from [if self._trackingLoop is None]
    on, given what the recursive calls of [initialize] do. *)
Definition initialize_tail_with
    (initialize : option Device -> Z -> UartManager -> Outcome)
    (s : UartManager) : Outcome :=
  let setupConnection := setupConnection_with initialize in
  let _attemptConnection := _attemptConnection_with setupConnection in
  let reset := fun s => initialize None default_baudrate (reset_fields s) in
  let s := match _trackingLoop s with
           | None => set_trackingLoop (Some (get_running_loop W)) s
           | Some _ => s
           end in
  match port s with
  | None =>
      if (List.length (_availablePorts s) <=? _attemptingIndex s)%nat then
        let s := record [EvLogger DEBUG "No Crownstone USB connected? Retrying..."] s in
        let s := record [EvSleep 1] s in
        reset s
      else
        _attemptConnection (_attemptingIndex s) true s
  | Some _ => Returned s
  end.

(** The body of [initialize], given what its recursive calls (made through
    [setupConnection] and [reset]) do. *)
Definition initialize_with
    (initialize : option Device -> Z -> UartManager -> Outcome)
    (port_arg : option Device) (baudrate : Z) (s : UartManager) : Outcome :=
  let setupConnection := setupConnection_with initialize in
  let _attemptConnection := _attemptConnection_with setupConnection in
  let s := set_baudRate baudrate s in
  let s := set_ready false s in
  match port_arg with
  | Some port =>
      match find_port port (_availablePorts s) 0 with
      | None => setupConnection port true s
      | Some index =>
          let s := set_attemptingIndex index s in
          match _attemptConnection (_attemptingIndex s) false s with
          | Returned s => initialize_tail_with initialize s
          | r => r
          end
      end
  | None => initialize_tail_with initialize s
  end.

(** [initialize].  Every call takes one unit of fuel; the calls it makes get
    what is left. *)
Fixpoint initialize (fuel : nat) : option Device -> Z -> UartManager -> Outcome :=
  match fuel with
  | O => fun _ _ _ => OutOfFuel
  | S fuel' => initialize_with (initialize fuel')
  end.

Definition setupConnection (fuel : nat) : Device -> bool -> UartManager -> Outcome :=
  setupConnection_with (initialize fuel).

Definition _attemptConnection (fuel : nat) : nat -> bool -> UartManager -> Outcome :=
  _attemptConnection_with (setupConnection fuel).

Definition reset (fuel : nat) (s : UartManager) : Outcome :=
  initialize fuel None default_baudrate (reset_fields s).

(** [trackConnection].  The coroutine is suspended in
    [await self._uartBridge.isAlive()] for as long as the link is up;
    [meanwhile] is what the rest of the program does to the manager until the
    liveness future resolves. *)
Definition trackConnection (meanwhile : UartManager -> UartManager)
    (s : UartManager) : Outcome :=
  match _uartBridge s with
  | None =>
      Raised (PyException "AttributeError"
                "'NoneType' object has no attribute 'isAlive'") s
  | Some bridge =>
      let s := meanwhile s in
      let s := record [EvIsAlive (bridge_port bridge)] s in
      if running s then Returned (record [EvEnsureFuture Reset] s)
      else Returned s
  end.

Definition is_ready (s : UartManager) : bool := ready s.

(** Running a task that was handed to [asyncio.ensure_future]. *)
Definition run_task (fuel : nat) (meanwhile : UartManager -> UartManager)
    (task : Task) (s : UartManager) : Outcome :=
  match task with
  | TrackConnection => trackConnection meanwhile s
  | Reset => reset fuel s
  end.

End UartManager.

(** The tasks handed to [asyncio.ensure_future] in a list of events. *)
Definition ensured (evs : list Event) : list Task :=
  flat_map (fun e => match e with EvEnsureFuture t => [t] | _ => [] end) evs.

(** The handshakes of a list of events. *)
Definition handshakes_in (evs : list Event) : list (Device * bool) :=
  flat_map (fun e => match e with EvHandshake p ok => [(p, ok)] | _ => [] end) evs.

Definition sleeps_in (evs : list Event) : list Z :=
  flat_map (fun e => match e with EvSleep n => [n] | _ => [] end) evs.

Definition enumerations_in (evs : list Event) : list (list Device) :=
  flat_map (fun e => match e with EvComports l => [l] | _ => [] end) evs.

(* ------------------------------------------------------------------------- *)
(** ** Concrete instances, used to run the definitions *)

(** A numbering of the protocol that satisfies [well_numbered]. *)
Definition sample_rx (x : UartRxType.t) : Z :=
  match x with
  | UartRxType.HELLO => 0
  | UartRxType.SESSION_NONCE => 1
  | UartRxType.HEARTBEAT => 2
  | UartRxType.STATUS => 3
  | UartRxType.RESULT_PACKET => 4
  | UartRxType.ERR_REPLY_PARSING_FAILED => 9900
  | UartRxType.ERR_REPLY_STATUS => 9901
  | UartRxType.ERR_REPLY_SESSION_NONCE_MISSING => 9902
  | UartRxType.ERR_REPLY_DECRYPTION_FAILED => 9903
  | UartRxType.UART_MESSAGE => 10000
  | UartRxType.SESSION_NONCE_MISSING => 10001
  | UartRxType.OWN_SERVICE_DATA => 10002
  | UartRxType.PRESENCE_CHANGE => 10004
  | UartRxType.FACTORY_RESET => 10005
  | UartRxType.BOOTED => 10006
  | UartRxType.HUB_DATA => 10007
  | UartRxType.MESH_SERVICE_DATA => 10102
  | UartRxType.EXTERNAL_STATE_PART_0 => 10103
  | UartRxType.EXTERNAL_STATE_PART_1 => 10104
  | UartRxType.MESH_RESULT => 10105
  | UartRxType.MESH_ACK_ALL_RESULT => 10106
  | UartRxType.RSSI_PING_MESSAGE => 10107
  | UartRxType.ASSET_MAC_RSSI_REPORT => 10108
  | UartRxType.ASSET_ID_RSSI_REPORT => 10109
  | UartRxType.LOG => 10200
  | UartRxType.LOG_ARRAY => 10201
  | UartRxType.INTERNAL_EVENT => 40000
  | UartRxType.MESH_CMD_TIME => 40102
  | UartRxType.MESH_PROFILE_LOCATION => 40110
  | UartRxType.MESH_SET_BEHAVIOUR_SETTINGS => 40111
  | UartRxType.MESH_TRACKED_DEVICE_REGISTER => 40112
  | UartRxType.MESH_TRACKED_DEVICE_TOKEN => 40113
  | UartRxType.MESH_SYNC_REQUEST => 40114
  | UartRxType.MESH_TRACKED_DEVICE_HEARTBEAT => 40120
  | UartRxType.ADVERTISING_ENABLED => 50000
  | UartRxType.MESH_ENABLED => 50001
  | UartRxType.CROWNSTONE_ID => 50002
  | UartRxType.MAC_ADDRESS => 50003
  | UartRxType.ADC_CONFIG => 50100
  | UartRxType.ADC_RESTART => 50101
  | UartRxType.POWER_LOG_CURRENT => 50102
  | UartRxType.POWER_LOG_VOLTAGE => 50103
  | UartRxType.POWER_LOG_FILTERED_CURRENT => 50104
  | UartRxType.POWER_LOG_FILTERED_VOLTAGE => 50105
  | UartRxType.POWER_LOG_POWER => 50106
  | UartRxType.ASCII_LOG => 50200
  | UartRxType.FIRMWARESTATE => 50201
  end.

Definition sample_mt (x : UartMessageType.t) : Z :=
  match x with
  | UartMessageType.UART_MESSAGE => 0
  | UartMessageType.ENCRYPTED_UART_MESSAGE => 128
  end.

Definition sample_protocol : Protocol :=
  {| PROTOCOL_MAJOR := 1; rx := sample_rx; mt := sample_mt |}.

(** A decoder that wraps the bytes it is given in an object of class [cls]. *)
Definition wrap (cls : string) (p : list byte) : result Value :=
  Return (VObj cls [("payload", VBytes p)]).

(** An inner-message decoder: a little-endian 16-bit opcode, then the payload. *)
Definition sample_message_parse (p : list byte) : option UartMessagePacket :=
  match p with
  | lo :: hi :: rest =>
      Some {| opCode := byte_val lo + 256 * byte_val hi; payload := rest |}
  | _ => None
  end.

(** An identifier decoder: the value of a one-byte payload. *)
Definition sample_int8_to_uint8 (p : list byte) : result Value :=
  match p with
  | [b] => Return (VInt (byte_val b))
  | _ => Raise (CrownstoneException "expected one byte")
  end.

(** An address decoder that returns the empty string for what it rejects:
    a payload that is not six bytes long, or six zero bytes. *)
Definition sample_uint8_array_to_address (p : list byte) : result Value :=
  if (List.length p =? 6)%nat && negb (forallb (fun b => byte_val b =? 0) p)
  then Return (VStr "01:23:45:67:89:AB")
  else Return (VStr "").

(** Collaborators whose failures are all [CrownstoneException]s, on a bus
    whose subscribers let nothing escape. *)
Definition sample_collaborators : Collaborators :=
  {| UartMessagePacket_parse := sample_message_parse;
     UartCrownstoneHelloPacket := wrap "UartCrownstoneHelloPacket";
     ResultPacket := fun p =>
       match p with
       | [] => Raise (CrownstoneException "result packet too short")
       | _ => wrap "ResultPacket" p
       end;
     ServiceData_payload := wrap "ServiceData";
     parseOpcode7 := fun p =>
       match p with
       | b :: _ => Return (VObj "AdvCrownstoneState" [("crownstoneId", VInt (byte_val b))])
       | [] => Return (VObj "AdvUnknownData" [])
       end;
     UartLogPacket := wrap "UartLogPacket";
     UartLogArrayPacket := wrap "UartLogArrayPacket";
     AssetMacReport := wrap "AssetMacReport";
     AssetIdReport := wrap "AssetIdReport";
     int8_to_uint8 := sample_int8_to_uint8;
     uint8_array_to_address := sample_uint8_array_to_address;
     AdcConfigPacket_getDict := wrap "dict";
     CurrentSamplesPacket_getDict := wrap "dict";
     VoltageSamplesPacket_getDict := wrap "dict";
     PowerCalculationPacket_getDict := wrap "dict";
     subscribers := fun _ _ => None;
     now := "2021-06-01 12:00:00.000000" |}.

(** The same collaborators, with a subscriber of the own-id topic whose
    callback raises a [ValueError]. *)
Definition failing_subscriber : Collaborators :=
  {| UartMessagePacket_parse := UartMessagePacket_parse sample_collaborators;
     UartCrownstoneHelloPacket := UartCrownstoneHelloPacket sample_collaborators;
     ResultPacket := ResultPacket sample_collaborators;
     ServiceData_payload := ServiceData_payload sample_collaborators;
     parseOpcode7 := parseOpcode7 sample_collaborators;
     UartLogPacket := UartLogPacket sample_collaborators;
     UartLogArrayPacket := UartLogArrayPacket sample_collaborators;
     AssetMacReport := AssetMacReport sample_collaborators;
     AssetIdReport := AssetIdReport sample_collaborators;
     int8_to_uint8 := int8_to_uint8 sample_collaborators;
     uint8_array_to_address := uint8_array_to_address sample_collaborators;
     AdcConfigPacket_getDict := AdcConfigPacket_getDict sample_collaborators;
     CurrentSamplesPacket_getDict := CurrentSamplesPacket_getDict sample_collaborators;
     VoltageSamplesPacket_getDict := VoltageSamplesPacket_getDict sample_collaborators;
     PowerCalculationPacket_getDict := PowerCalculationPacket_getDict sample_collaborators;
     subscribers := fun topic _ =>
       if Topic_eqb topic DevTopics_ownCrownstoneId
       then Some (PyException "ValueError" "subscriber failed")
       else None;
     now := now sample_collaborators |}.

(** The same collaborators, with a result-packet decoder that indexes past the
    end of a short payload. *)
Definition failing_decoder : Collaborators :=
  {| UartMessagePacket_parse := UartMessagePacket_parse sample_collaborators;
     UartCrownstoneHelloPacket := UartCrownstoneHelloPacket sample_collaborators;
     ResultPacket := fun p =>
       match p with
       | [] => Raise (PyException "IndexError" "index out of range")
       | _ => wrap "ResultPacket" p
       end;
     ServiceData_payload := ServiceData_payload sample_collaborators;
     parseOpcode7 := parseOpcode7 sample_collaborators;
     UartLogPacket := UartLogPacket sample_collaborators;
     UartLogArrayPacket := UartLogArrayPacket sample_collaborators;
     AssetMacReport := AssetMacReport sample_collaborators;
     AssetIdReport := AssetIdReport sample_collaborators;
     int8_to_uint8 := int8_to_uint8 sample_collaborators;
     uint8_array_to_address := uint8_array_to_address sample_collaborators;
     AdcConfigPacket_getDict := AdcConfigPacket_getDict sample_collaborators;
     CurrentSamplesPacket_getDict := CurrentSamplesPacket_getDict sample_collaborators;
     VoltageSamplesPacket_getDict := VoltageSamplesPacket_getDict sample_collaborators;
     PowerCalculationPacket_getDict := PowerCalculationPacket_getDict sample_collaborators;
     subscribers := subscribers sample_collaborators;
     now := now sample_collaborators |}.

Definition msg (x : UartRxType.t) (p : list byte) : UartMessagePacket :=
  {| opCode := sample_rx x; payload := p |}.

(** Three serial ports, of which only the last one answers the handshake. *)
Definition three_ports_world : World :=
  {| comports := fun _ => ["/dev/ttyUSB0"; "/dev/ttyUSB1"; "/dev/ttyACM0"];
     handshake := fun _ port => String.eqb port "/dev/ttyACM0";
     get_running_loop := 0%nat |}.

(** No serial port is ever enumerated; a device answers on whatever is opened. *)
Definition no_ports_world : World :=
  {| comports := fun _ => [];
     handshake := fun _ _ => true;
     get_running_loop := 0%nat |}.

(** The state of an outcome that returned, and [fallback] otherwise. *)
Definition returned_or (fallback : UartManager) (o : Outcome) : UartManager :=
  match o with
  | Returned s => s
  | _ => fallback
  end.

(** A manager that went through its candidates and connected to the third. *)
Definition connected_to_third : UartManager :=
  returned_or (__init__ three_ports_world None)
    (initialize three_ports_world 3 None 230400 (__init__ three_ports_world None)).

(** A manager that was told to connect to a port that is not enumerated, and
    did. *)
Definition connected_to_unlisted : UartManager :=
  returned_or (__init__ no_ports_world None)
    (initialize no_ports_world 1 (Some "/dev/ttyACM0") 230400
       (__init__ no_ports_world None)).

(* ------------------------------------------------------------------------- *)
(** ** Vocabulary of the statements *)

(** An opcode of the error-reply policy: one of the four named error replies,
    or a number inside the guarded range. *)
Definition error_reply_opCode (P : Protocol) (z : Z) : Prop :=
  (exists x, UartRxType.is_err_reply x = true /\ z = rx P x)
  \/ 9900 < z < 10000.

(** An opcode that no branch of the dispatcher tests for. *)
Definition unknown_opCode (P : Protocol) (z : Z) : Prop :=
  (forall x, z <> rx P x) /\ err_reply_range z = false.

Definition is_domain (e : exn) : bool :=
  match e with
  | CrownstoneException _ => true
  | PyException _ _ => false
  end.

(** A computation that lets no exception other than a [CrownstoneException]
    escape. *)
Definition raises_domain {A : Type} (c : M A) : Prop :=
  forall e, outcome c = Raise e -> is_domain e = true.

Definition decoder_raises_domain (f : list byte -> result Value) : Prop :=
  forall p e, f p = Raise e -> is_domain e = true.

(** Collaborators whose every failure, in a decoder or in a subscriber, is a
    [CrownstoneException]. *)
Definition domain_failures (C : Collaborators) : Prop :=
  decoder_raises_domain (UartCrownstoneHelloPacket C)
  /\ decoder_raises_domain (ResultPacket C)
  /\ decoder_raises_domain (ServiceData_payload C)
  /\ decoder_raises_domain (parseOpcode7 C)
  /\ decoder_raises_domain (UartLogPacket C)
  /\ decoder_raises_domain (UartLogArrayPacket C)
  /\ decoder_raises_domain (AssetMacReport C)
  /\ decoder_raises_domain (AssetIdReport C)
  /\ decoder_raises_domain (int8_to_uint8 C)
  /\ decoder_raises_domain (uint8_array_to_address C)
  /\ decoder_raises_domain (AdcConfigPacket_getDict C)
  /\ decoder_raises_domain (CurrentSamplesPacket_getDict C)
  /\ decoder_raises_domain (VoltageSamplesPacket_getDict C)
  /\ decoder_raises_domain (PowerCalculationPacket_getDict C)
  /\ (forall topic v e, subscribers C topic v = Some e -> is_domain e = true).

(** What a successful [setupConnection] does to the outside: it opens a bridge,
    makes the handshake unless told not to, and launches the liveness watch. *)
Definition connect_events (dev : Device) (baud : Z) (with_handshake : bool) : list Event :=
  [EvBridgeNew dev baud; EvBridgeStart dev; EvBridgeStarting dev]
  ++ (if with_handshake then [EvHandshake dev true] else [])
  ++ [EvLogger INFO ("Connection established to " ++ dev);
      EvEnsureFuture TrackConnection].

(** From [s] to [s']: the run ended by connecting to a port on which the
    handshake succeeded. *)
Definition ready_by_handshake (s s' : UartManager) : Prop :=
  exists dev baud pre,
    port s' = Some dev
    /\ _uartBridge s' = Some {| bridge_port := dev; bridge_baudRate := baud |}
    /\ history s' = history s ++ pre ++ connect_events dev baud true.

(** From [s] to [s']: the run was given a port that is among the candidates of
    [s], and connected to it without a handshake. *)
Definition ready_by_skipped_handshake (port_arg : option Device)
    (s s' : UartManager) : Prop :=
  exists dev baud,
    port_arg = Some dev
    /\ In dev (_availablePorts s)
    /\ port s' = Some dev
    /\ _uartBridge s' = Some {| bridge_port := dev; bridge_baudRate := baud |}
    /\ history s' = history s ++ connect_events dev baud false.

(** The routing table of the dispatcher: the topic on which the branch of a
    member emits, if it emits at all. *)
Definition topic_of (x : UartRxType.t) : option Topic :=
  match x with
  | UartRxType.HELLO => Some UartTopics_hello
  | UartRxType.RESULT_PACKET => Some SystemTopics_resultPacket
  | UartRxType.UART_MESSAGE => Some UartTopics_uartMessage
  | UartRxType.OWN_SERVICE_DATA => Some DevTopics_newServiceData
  | UartRxType.MESH_SERVICE_DATA => Some SystemTopics_stateUpdate
  | UartRxType.MESH_RESULT => Some SystemTopics_meshResultPacket
  | UartRxType.MESH_ACK_ALL_RESULT => Some SystemTopics_meshResultFinalPacket
  | UartRxType.LOG => Some UartTopics_log
  | UartRxType.LOG_ARRAY => Some UartTopics_logArray
  | UartRxType.ASSET_MAC_RSSI_REPORT => Some UartTopics_assetTrackingReport
  | UartRxType.ASSET_ID_RSSI_REPORT => Some UartTopics_assetIdReport
  | UartRxType.CROWNSTONE_ID => Some DevTopics_ownCrownstoneId
  | UartRxType.MAC_ADDRESS => Some DevTopics_ownMacAddress
  | UartRxType.ADC_CONFIG => Some DevTopics_newAdcConfigPacket
  | UartRxType.ADC_RESTART => Some DevTopics_adcRestarted
  | UartRxType.POWER_LOG_CURRENT => Some DevTopics_newCurrentData
  | UartRxType.POWER_LOG_VOLTAGE => Some DevTopics_newVoltageData
  | UartRxType.POWER_LOG_FILTERED_CURRENT => Some DevTopics_newFilteredCurrentData
  | UartRxType.POWER_LOG_FILTERED_VOLTAGE => Some DevTopics_newFilteredVoltageData
  | UartRxType.POWER_LOG_POWER => Some DevTopics_newCalculatedPowerData
  | _ => None
  end.

Definition is_print (e : Effect) : bool :=
  match e with Print _ => true | _ => false end.

(** What a run of the opcode switch looks like: either it emits nothing, or
    it ends with its only emission, whose subscribers decide the outcome. *)
Definition dispatch_shape (C : Collaborators) (c : M unit) : Prop :=
  bus_events (trace c) = []
  \/ exists pre topic v,
       trace c = pre ++ [Emit topic v]
       /\ bus_events pre = []
       /\ outcome c = match subscribers C topic v with
                      | Some e => Raise e
                      | None => Return tt
                      end.

(** Counting open bridges along a list of events, starting with [n] open:
    [None] as soon as a bridge is made while another one is open, and the
    number of open bridges at the end otherwise. *)
Fixpoint bridges_walk (n : nat) (evs : list Event) : option nat :=
  match evs with
  | [] => Some n
  | EvBridgeNew _ _ :: r =>
      match n with
      | O => bridges_walk 1 r
      | S _ => None
      end
  | EvBridgeStop _ :: r => bridges_walk (Nat.pred n) r
  | EvBridgeStopSync _ :: r => bridges_walk (Nat.pred n) r
  | _ :: r => bridges_walk n r
  end.

(** Whether a list of events shows a retry: a bridge given up after a failed
    handshake, or a backoff sleep. *)
Definition retried (evs : list Event) : bool :=
  existsb (fun e => match e with
                    | EvBridgeStop _ | EvSleep _ => true
                    | _ => false
                    end) evs.

(** What a run of the manager from [s] to [s'] looks like, for a call made
    with baud rate [b] that was asked to connect to [direct] (if to any port in
    particular). *)
Definition run_summary (b : Z) (direct : option Device)
    (s s' : UartManager) : Prop :=
  exists evs,
    history s' = history s ++ evs
    /\ bridges_walk 0 evs = Some (if ready s' then 1%nat else 0%nat)
    /\ ensured evs = (if ready s' then [TrackConnection] else [])
    /\ baudRate s' = (if retried evs then default_baudrate else b)
    /\ (port s = None -> ready s' = true)
    /\ (ready s' = true ->
        exists dev,
          port s' = Some dev
          /\ _uartBridge s'
             = Some {| bridge_port := dev; bridge_baudRate := baudRate s' |}
          /\ (nth_error (_availablePorts s') (_attemptingIndex s') = Some dev
              \/ (direct = Some dev
                  /\ retried evs = false
                  /\ _attemptingIndex s' = _attemptingIndex s
                  /\ _availablePorts s' = _availablePorts s))).



(* ========================================================================= *)
(** * Properties *)

(* ------------------------------------------------------------------------- *)
(** ** The numbering of a well-numbered protocol *)

Lemma members_complete : forall x : UartRxType.t, In x UartRxType.members.
Proof.
  destruct x; unfold UartRxType.members;
    repeat first [ left; reflexivity | right ].
Qed.

Lemma existsb_eqb_In (z : Z) (l : list Z) :
  In z l -> existsb (Z.eqb z) l = true.
Proof.
  intro H. apply existsb_exists. exists z. split; [assumption | apply Z.eqb_refl].
Qed.

Lemma distinct_injective {A : Type} (f : A -> Z) (l : list A) :
  distinct (map f l) = true ->
  forall a b, In a l -> In b l -> f a = f b -> a = b.
Proof.
  induction l as [|x r IH]; simpl; intros D a b Ha Hb E; [contradiction|].
  apply andb_true_iff in D. destruct D as [Hx Hr].
  apply negb_true_iff in Hx.
  destruct Ha as [<-|Ha], Hb as [<-|Hb]; try reflexivity.
  - rewrite existsb_eqb_In in Hx; [discriminate|].
    rewrite E. now apply in_map.
  - rewrite existsb_eqb_In in Hx; [discriminate|].
    rewrite <- E. now apply in_map.
  - now apply IH.
Qed.

Section Numbering.

Variable P : Protocol.
Hypothesis WN : well_numbered P = true.

Lemma rx_injective (a b : UartRxType.t) : rx P a = rx P b -> a = b.
Proof.
  unfold well_numbered in WN.
  apply andb_true_iff in WN. destruct WN as [H _].
  apply andb_true_iff in H. destruct H as [D _].
  apply (distinct_injective (rx P) UartRxType.members D);
    apply members_complete.
Qed.

Lemma rx_eqb (a b : UartRxType.t) :
  (rx P a =? rx P b) = UartRxType.eqb a b.
Proof.
  unfold UartRxType.eqb. destruct (UartRxType.eq_dec a b) as [->|N].
  - apply Z.eqb_refl.
  - apply Z.eqb_neq. intro E. apply N. now apply rx_injective.
Qed.

Lemma rx_outside_err_range (x : UartRxType.t) :
  UartRxType.is_err_reply x = false -> err_reply_range (rx P x) = false.
Proof.
  intro E. unfold well_numbered in WN.
  apply andb_true_iff in WN. destruct WN as [H _].
  apply andb_true_iff in H. destruct H as [_ F].
  rewrite forallb_forall in F.
  specialize (F x (members_complete x)).
  rewrite E in F. simpl in F. now apply negb_true_iff in F.
Qed.

Lemma err_range_not_member (z : Z) (x : UartRxType.t) :
  err_reply_range z = true -> UartRxType.is_err_reply x = false ->
  (z =? rx P x) = false.
Proof.
  intros R E. apply Z.eqb_neq. intros ->.
  rewrite (rx_outside_err_range x E) in R. discriminate.
Qed.

Lemma mt_distinct :
  (mt P UartMessageType.ENCRYPTED_UART_MESSAGE =? mt P UartMessageType.UART_MESSAGE) = false.
Proof.
  unfold well_numbered in WN.
  apply andb_true_iff in WN. destruct WN as [_ H].
  apply negb_true_iff in H. rewrite Z.eqb_sym. exact H.
Qed.

End Numbering.

(** Decide the tests of the opcode chain for an opcode that is the value of a
    known member. *)
Ltac decide_members :=
  repeat match goal with
         | |- context [UartRxType.eqb ?a ?b] =>
             let v := eval vm_compute in (UartRxType.eqb a b) in
             change (UartRxType.eqb a b) with v
         end;
  cbv beta iota zeta.

Ltac dispatch_member WN :=
  unfold _handleUartMessage; cbn [opCode payload]; cbv zeta beta;
  rewrite ?(rx_eqb _ WN);
  repeat match goal with
         | |- context [err_reply_range (rx ?P ?x)] =>
             rewrite (rx_outside_err_range P WN x eq_refl)
         end;
  decide_members.

Lemma sample_protocol_well_numbered : well_numbered sample_protocol = true.
Proof. vm_compute. reflexivity. Qed.

(* ------------------------------------------------------------------------- *)
(** ** Frame validation *)

(** C3.  A wrapper packet whose [protocolMajor] is not [PROTOCOL_MAJOR] makes
    [parse] log one warning and return: nothing is emitted on the new-message
    topic or on any other topic, and the payload is never handed to the
    message decoder (the result does not depend on the collaborators). *)
Theorem parse_drops_unsupported_major :
  forall (P : Protocol) (C : Collaborators) (w : UartWrapperPacket),
    protocolMajor w <> PROTOCOL_MAJOR P ->
    parse P C (AWrapperPacket w)
      = ([Log WARNING "Unknown protocol: " (DVersion (protocolMajor w) (protocolMinor w))],
         Return tt)
    /\ emitted_on SystemTopics_uartNewMessage (trace (parse P C (AWrapperPacket w))) = []
    /\ bus_events (trace (parse P C (AWrapperPacket w))) = [].
Proof.
  intros P C w H.
  assert (E : parse P C (AWrapperPacket w)
              = ([Log WARNING "Unknown protocol: "
                    (DVersion (protocolMajor w) (protocolMinor w))], Return tt)).
  { unfold parse. apply Z.eqb_neq in H. rewrite H. reflexivity. }
  rewrite E. repeat split.
Qed.

Lemma parse_drops_unsupported_major_witness :
  parse sample_protocol sample_collaborators
    (AWrapperPacket {| protocolMajor := 2; protocolMinor := 0; messageType := 0;
                       wrapperPayload := [x52; xc3; x07] |})
  = ([Log WARNING "Unknown protocol: " (DVersion 2 0)], Return tt).
Proof.
  apply (parse_drops_unsupported_major sample_protocol sample_collaborators
           {| protocolMajor := 2; protocolMinor := 0; messageType := 0;
              wrapperPayload := [x52; xc3; x07] |}).
  simpl. lia.
Defined.

(** C4.  A wrapper packet whose [messageType] is [ENCRYPTED_UART_MESSAGE] makes
    [parse] write one log record and return normally, whatever its payload:
    nothing is emitted on the new-message topic or on any other topic.  The
    record is the one about the missing decryption when the major version is
    the supported one, and the one about the unknown protocol otherwise. *)
Theorem parse_drops_encrypted :
  forall (P : Protocol) (C : Collaborators) (w : UartWrapperPacket),
    well_numbered P = true ->
    messageType w = mt P UartMessageType.ENCRYPTED_UART_MESSAGE ->
    outcome (parse P C (AWrapperPacket w)) = Return tt
    /\ bus_events (trace (parse P C (AWrapperPacket w))) = []
    /\ emitted_on SystemTopics_uartNewMessage (trace (parse P C (AWrapperPacket w))) = []
    /\ (trace (parse P C (AWrapperPacket w))
          = (if protocolMajor w =? PROTOCOL_MAJOR P
             then [Log INFO "Received encrypted msg: decryption is not implemented." NoData]
             else [Log WARNING "Unknown protocol: "
                     (DVersion (protocolMajor w) (protocolMinor w))])).
Proof.
  intros P C w WN H. unfold parse. rewrite H.
  destruct (protocolMajor w =? PROTOCOL_MAJOR P); simpl.
  - rewrite (mt_distinct P WN), Z.eqb_refl. simpl. repeat split.
  - repeat split.
Qed.

Lemma parse_drops_encrypted_witness :
  outcome (parse sample_protocol sample_collaborators
             (AWrapperPacket {| protocolMajor := 1; protocolMinor := 0;
                                messageType := 128;
                                wrapperPayload := [x52; xc3; x07] |})) = Return tt.
Proof.
  apply (parse_drops_encrypted sample_protocol sample_collaborators
           {| protocolMajor := 1; protocolMinor := 0; messageType := 128;
              wrapperPayload := [x52; xc3; x07] |}).
  - vm_compute. reflexivity.
  - reflexivity.
Defined.

(* ------------------------------------------------------------------------- *)
(** ** Opcode dispatch: error replies and unknown opcodes *)

Lemma handleUartMessage_of_return (P : Protocol) (C : Collaborators)
    (m : UartMessagePacket) (t : list Effect) :
  _handleUartMessage P C m = (t, Return tt) ->
  handleUartMessage P C m = (t, Return tt).
Proof. intro E. unfold handleUartMessage. rewrite E. reflexivity. Qed.

Lemma named_error_reply_logged (P : Protocol) (C : Collaborators)
    (x : UartRxType.t) (p : list byte) :
  well_numbered P = true ->
  UartRxType.is_err_reply x = true ->
  exists text data,
    _handleUartMessage P C {| opCode := rx P x; payload := p |}
      = ([Log DEBUG text data], Return tt).
Proof.
  intros WN E.
  destruct x; try discriminate E; dispatch_member WN;
    eexists; eexists; reflexivity.
Qed.

Lemma ranged_error_reply_logged (P : Protocol) (C : Collaborators)
    (m : UartMessagePacket) :
  well_numbered P = true ->
  err_reply_range (opCode m) = true ->
  exists text data, _handleUartMessage P C m = ([Log DEBUG text data], Return tt).
Proof.
  intros WN R. unfold _handleUartMessage. cbv zeta beta.
  rewrite (err_range_not_member P WN _ UartRxType.HELLO R eq_refl),
    (err_range_not_member P WN _ UartRxType.SESSION_NONCE R eq_refl),
    (err_range_not_member P WN _ UartRxType.HEARTBEAT R eq_refl),
    (err_range_not_member P WN _ UartRxType.STATUS R eq_refl),
    (err_range_not_member P WN _ UartRxType.RESULT_PACKET R eq_refl).
  rewrite R.
  repeat match goal with
         | |- context [opCode m =? rx P ?x] => destruct (opCode m =? rx P x)
         end;
    eexists; eexists; reflexivity.
Qed.

Lemma unknown_opCode_logged (P : Protocol) (C : Collaborators)
    (m : UartMessagePacket) :
  unknown_opCode P (opCode m) ->
  _handleUartMessage P C m = ([Log DEBUG "Unknown opCode: " (DInt (opCode m))], Return tt).
Proof.
  intros [N R]. unfold _handleUartMessage. cbv zeta beta.
  rewrite R.
  repeat match goal with
         | |- context [opCode m =? rx P ?x] =>
             rewrite (proj2 (Z.eqb_neq (opCode m) (rx P x)) (N x))
         end.
  reflexivity.
Qed.

(** C5.  A message whose opcode is one of the four named error replies, or
    lies strictly between 9900 and 10000, is handled by writing one debug log
    record: the dispatch returns normally and emits nothing.  On the bus this
    is what an unknown opcode gives as well (no emission, normal return); the
    two differ in the log record only. *)
Theorem error_reply_is_silent :
  forall (P : Protocol) (C : Collaborators) (m : UartMessagePacket),
    well_numbered P = true ->
    error_reply_opCode P (opCode m) ->
    (exists text data,
        handleUartMessage P C m = ([Log DEBUG text data], Return tt))
    /\ outcome (handleUartMessage P C m) = Return tt
    /\ bus_events (trace (handleUartMessage P C m)) = []
    /\ (forall m', unknown_opCode P (opCode m') ->
          outcome (handleUartMessage P C m') = outcome (handleUartMessage P C m)
          /\ bus_events (trace (handleUartMessage P C m'))
             = bus_events (trace (handleUartMessage P C m))).
Proof.
  intros P C m WN H.
  assert (L : exists text data,
             _handleUartMessage P C m = ([Log DEBUG text data], Return tt)).
  { destruct H as [(x & E & Hx) | R].
    - destruct m as [z p]. simpl in Hx. subst z.
      now apply named_error_reply_logged.
    - apply ranged_error_reply_logged; [assumption|].
      unfold err_reply_range. apply andb_true_iff.
      split; apply Z.ltb_lt; lia. }
  destruct L as (text & data & L).
  apply handleUartMessage_of_return in L.
  rewrite L. simpl. repeat split.
  - exists text, data. reflexivity.
  - rewrite (handleUartMessage_of_return _ _ _ _ (unknown_opCode_logged P C m' H0)).
    reflexivity.
  - rewrite (handleUartMessage_of_return _ _ _ _ (unknown_opCode_logged P C m' H0)).
    reflexivity.
Qed.

Lemma error_reply_is_silent_witness :
  bus_events (trace (handleUartMessage sample_protocol sample_collaborators
                       {| opCode := 9950; payload := [x01; x02] |})) = [].
Proof.
  assert (WN : well_numbered sample_protocol = true) by (vm_compute; reflexivity).
  assert (R : error_reply_opCode sample_protocol 9950) by (right; lia).
  destruct (error_reply_is_silent sample_protocol sample_collaborators
              {| opCode := 9950; payload := [x01; x02] |} WN R)
    as (_ & _ & E & _).
  exact E.
Defined.

(* ------------------------------------------------------------------------- *)
(** ** Opcode dispatch: own identifier, own address, mesh results *)

(** C9.  With an identifier decoder that turns the payload [[0x07]] into the
    integer 7, a [CROWNSTONE_ID] message with that payload puts exactly one
    emission on the bus: the integer 7, on the own-id topic.  With an address
    decoder that answers a payload with the empty string (its answer for an
    all-zero or otherwise invalid address), a [MAC_ADDRESS] message with that
    payload emits nothing and writes one warning. *)
Theorem own_id_emitted_invalid_mac_dropped :
  forall (P : Protocol) (C : Collaborators) (p : list byte),
    well_numbered P = true ->
    int8_to_uint8 C [x07] = Return (VInt 7) ->
    uint8_array_to_address C p = Return (VStr "") ->
    (bus_events (trace (handleUartMessage P C
        {| opCode := rx P UartRxType.CROWNSTONE_ID; payload := [x07] |}))
       = [Emit DevTopics_ownCrownstoneId (VInt 7)]
     /\ emitted_on DevTopics_ownCrownstoneId (trace (handleUartMessage P C
          {| opCode := rx P UartRxType.CROWNSTONE_ID; payload := [x07] |}))
        = [VInt 7])
    /\ (handleUartMessage P C
          {| opCode := rx P UartRxType.MAC_ADDRESS; payload := p |}
        = ([Log WARNING "invalid address:" (DBytes p)], Return tt)
        /\ emitted_on DevTopics_ownMacAddress (trace (handleUartMessage P C
             {| opCode := rx P UartRxType.MAC_ADDRESS; payload := p |})) = []).
Proof.
  intros P C p WN Hid Hmac.
  assert (E1 : _handleUartMessage P C
                 {| opCode := rx P UartRxType.CROWNSTONE_ID; payload := [x07] |}
               = bind (call (int8_to_uint8 C [x07]))
                      (fun id => emit C DevTopics_ownCrownstoneId id)).
  { dispatch_member WN. reflexivity. }
  assert (E2 : _handleUartMessage P C
                 {| opCode := rx P UartRxType.MAC_ADDRESS; payload := p |}
               = ([Log WARNING "invalid address:" (DBytes p)], Return tt)).
  { dispatch_member WN. rewrite Hmac. reflexivity. }
  split.
  - unfold handleUartMessage. rewrite E1, Hid. unfold call, bind, emit.
    destruct (subscribers C DevTopics_ownCrownstoneId (VInt 7)) as [[msg0|cls msg0]|];
      split; reflexivity.
  - rewrite (handleUartMessage_of_return _ _ _ _ E2). split; reflexivity.
Qed.

Lemma own_id_emitted_invalid_mac_dropped_witness :
  emitted_on DevTopics_ownCrownstoneId
    (trace (handleUartMessage sample_protocol sample_collaborators
              (msg UartRxType.CROWNSTONE_ID [x07]))) = [VInt 7]
  /\ handleUartMessage sample_protocol sample_collaborators
       (msg UartRxType.MAC_ADDRESS [x00; x00; x00; x00; x00; x00])
     = ([Log WARNING "invalid address:" (DBytes [x00; x00; x00; x00; x00; x00])],
        Return tt).
Proof.
  assert (WN : well_numbered sample_protocol = true) by (vm_compute; reflexivity).
  assert (Hid : int8_to_uint8 sample_collaborators [x07] = Return (VInt 7))
    by reflexivity.
  assert (Hmac : uint8_array_to_address sample_collaborators
                   [x00; x00; x00; x00; x00; x00] = Return (VStr ""))
    by reflexivity.
  destruct (own_id_emitted_invalid_mac_dropped sample_protocol sample_collaborators
              [x00; x00; x00; x00; x00; x00] WN Hid Hmac)
    as ((_ & E1) & (E2 & _)).
  split; [exact E1 | exact E2].
Defined.

(** C10.  A [MESH_RESULT] message whose payload holds at most one byte is
    handled without any effect: nothing is emitted or logged and the dispatch
    returns normally, whatever the result-packet decoder would do (it is not
    reached, and neither are [payload[0]] and [payload[1:]]). *)
Theorem short_mesh_result_ignored :
  forall (P : Protocol) (C : Collaborators) (p : list byte),
    well_numbered P = true ->
    (List.length p <= 1)%nat ->
    _handleUartMessage P C {| opCode := rx P UartRxType.MESH_RESULT; payload := p |}
      = ([], Return tt)
    /\ handleUartMessage P C {| opCode := rx P UartRxType.MESH_RESULT; payload := p |}
      = ([], Return tt).
Proof.
  intros P C p WN L.
  assert (E : _handleUartMessage P C
                {| opCode := rx P UartRxType.MESH_RESULT; payload := p |}
              = ([], Return tt)).
  { dispatch_member WN.
    replace (1 <? Z.of_nat (List.length p)) with false
      by (symmetry; apply Z.ltb_ge; lia).
    reflexivity. }
  split; [exact E | now apply handleUartMessage_of_return].
Qed.

Lemma short_mesh_result_ignored_witness :
  handleUartMessage sample_protocol failing_decoder (msg UartRxType.MESH_RESULT [x2a])
    = ([], Return tt).
Proof.
  assert (WN : well_numbered sample_protocol = true) by (vm_compute; reflexivity).
  assert (L : (List.length [x2a] <= 1)%nat) by (simpl; lia).
  exact (proj2 (short_mesh_result_ignored sample_protocol failing_decoder [x2a] WN L)).
Defined.

(* ------------------------------------------------------------------------- *)
(** ** Opcode dispatch: which exceptions are caught *)

Lemma raises_domain_ret {A : Type} (a : A) : raises_domain (ret a).
Proof. intros e H. discriminate H. Qed.

Lemma raises_domain_log (lvl : Level) (text : string) (d : LogData) :
  raises_domain (log lvl text d).
Proof. intros e H. discriminate H. Qed.

Lemma raises_domain_print (line : string) : raises_domain (print line).
Proof. intros e H. discriminate H. Qed.

Lemma raises_domain_bind {A B : Type} (c : M A) (k : A -> M B) :
  raises_domain c -> (forall a, raises_domain (k a)) -> raises_domain (bind c k).
Proof.
  intros Hc Hk e. destruct c as [t [a|e']]; unfold bind.
  - specialize (Hk a). destruct (k a) as [t' r] eqn:E. intro H.
    apply Hk. exact H.
  - intro H. apply Hc. unfold outcome in *. simpl in *. congruence.
Qed.

Lemma raises_domain_call (f : list byte -> result Value) (p : list byte) :
  decoder_raises_domain f -> raises_domain (call (f p)).
Proof. intros Hf e H. simpl in H. exact (Hf p e H). Qed.

Lemma raises_domain_emit (C : Collaborators) (topic : Topic) (v : Value) :
  (forall topic v e, subscribers C topic v = Some e -> is_domain e = true) ->
  raises_domain (emit C topic v).
Proof.
  intros HS e. unfold emit, outcome. simpl.
  destruct (subscribers C topic v) as [e'|] eqn:E; intro H; inversion H; subst.
  exact (HS _ _ _ E).
Qed.

(** Under the length guard of the [MESH_RESULT] branch, [payload[0]] is in
    range. *)
Lemma getitem_guarded (p : list byte) :
  (1 <? Z.of_nat (List.length p)) = true -> exists b, getitem p 0 = Return b.
Proof.
  destruct p as [|b r]; simpl; intro H; [discriminate|].
  exists b. reflexivity.
Qed.

(** When the collaborators only fail with [CrownstoneException]s, so does the
    opcode switch: its own code (the indexing and slicing of the mesh result,
    the character loops) raises nothing. *)
Lemma _handleUartMessage_raises_domain (P : Protocol) (C : Collaborators)
    (m : UartMessagePacket) :
  domain_failures C -> raises_domain (_handleUartMessage P C m).
Proof.
  intros (H1 & H2 & H3 & H4 & H5 & H6 & H7 & H8 & H9 & H10 & H11 & H12 & H13 & H14 & HS).
  unfold _handleUartMessage. cbv zeta beta.
  repeat match goal with
         | |- raises_domain (if ?b then _ else _) => destruct b eqn:?
         end;
    try apply raises_domain_log;
    try apply raises_domain_ret;
    try apply raises_domain_print;
    try (apply raises_domain_emit; exact HS);
    try (apply raises_domain_bind;
         [ first [ apply raises_domain_call; assumption | apply raises_domain_log ]
         | intro; first
             [ apply raises_domain_emit; exact HS
             | apply raises_domain_bind;
               [ first [ apply raises_domain_call; assumption | apply raises_domain_log ]
               | intro; apply raises_domain_emit; exact HS ] ] ]).
  - (* MESH_SERVICE_DATA *)
    apply raises_domain_bind; [apply raises_domain_call; assumption|].
    intro result. apply raises_domain_bind; [apply raises_domain_log|].
    intros _. destruct (getattr result "crownstoneId").
    + apply raises_domain_emit; exact HS.
    + apply raises_domain_ret.
  - (* MESH_RESULT *)
    match goal with
    | G : (1 <? Z.of_nat (List.length (payload m))) = true |- _ =>
        destruct (getitem_guarded _ G) as [b Eb]
    end.
    rewrite Eb. apply raises_domain_bind; [apply raises_domain_ret|].
    intro b0. apply raises_domain_bind; [apply raises_domain_call; assumption|].
    intro. apply raises_domain_emit; exact HS.
  - (* MAC_ADDRESS *)
    apply raises_domain_bind; [apply raises_domain_call; assumption|].
    intro addr. destruct (ne_empty_str addr).
    + apply raises_domain_emit; exact HS.
    + apply raises_domain_log.
Qed.

Lemma handleUartMessage_catches (P : Protocol) (C : Collaborators)
    (m : UartMessagePacket) (t : list Effect) (text : string) :
  _handleUartMessage P C m = (t, Raise (CrownstoneException text)) ->
  handleUartMessage P C m
    = (t ++ [Log ERROR "Parse error: " (DExn (CrownstoneException text))], Return tt).
Proof. intro E. unfold handleUartMessage. rewrite E. reflexivity. Qed.

Lemma handleUartMessage_returns (P : Protocol) (C : Collaborators)
    (m : UartMessagePacket) :
  domain_failures C -> outcome (handleUartMessage P C m) = Return tt.
Proof.
  intro D. pose proof (_handleUartMessage_raises_domain P C m D) as R.
  unfold handleUartMessage.
  destruct (_handleUartMessage P C m) as [t [[]|[text|cls text]]] eqn:E; simpl.
  - reflexivity.
  - reflexivity.
  - specialize (R _ eq_refl). discriminate R.
Qed.

Lemma handle_all_returns (P : Protocol) (C : Collaborators)
    (msgs : list UartMessagePacket) :
  domain_failures C ->
  handle_all P C msgs
    = (flat_map (fun m => trace (handleUartMessage P C m)) msgs, Return tt).
Proof.
  intro D. induction msgs as [|m r IH]; [reflexivity|].
  simpl. pose proof (handleUartMessage_returns P C m D) as R.
  destruct (handleUartMessage P C m) as [t o]. simpl in R. subst o.
  unfold bind. rewrite IH. reflexivity.
Qed.

Lemma sample_collaborators_domain_failures : domain_failures sample_collaborators.
Proof.
  unfold domain_failures, decoder_raises_domain, sample_collaborators, wrap; simpl.
  repeat split; try (intros p e H; discriminate H).
  - intros [|b r] e H; inversion H; reflexivity.
  - intros [|b r] e H; discriminate H.
  - intros [|b [|b' r]] e H; inversion H; reflexivity.
  - intros p e. unfold sample_uint8_array_to_address.
    destruct ((List.length p =? 6)%nat && _); intro H; discriminate H.
  - intros topic v e H; discriminate H.
Qed.

(** C2, as the code has it.  [handleUartMessage] catches the exceptions of
    class [CrownstoneException]: when the opcode switch raises one, from a
    decoder or from a subscriber reached through an emission, the handler
    appends one error record to what was done so far and returns normally.
    Hence, with collaborators whose failures are all of that class, every
    message of a sequence is handled, whatever the messages before it did. *)
Theorem handleUartMessage_catches_domain_exceptions :
  forall (P : Protocol) (C : Collaborators) (msgs : list UartMessagePacket),
    domain_failures C ->
    (forall m t text,
        _handleUartMessage P C m = (t, Raise (CrownstoneException text)) ->
        handleUartMessage P C m
          = (t ++ [Log ERROR "Parse error: " (DExn (CrownstoneException text))],
             Return tt))
    /\ (forall m, outcome (handleUartMessage P C m) = Return tt)
    /\ outcome (handle_all P C msgs) = Return tt
    /\ trace (handle_all P C msgs)
       = flat_map (fun m => trace (handleUartMessage P C m)) msgs.
Proof.
  intros P C msgs D. repeat split.
  - intros m t text. apply handleUartMessage_catches.
  - intro m. now apply handleUartMessage_returns.
  - rewrite (handle_all_returns P C msgs D). reflexivity.
  - rewrite (handle_all_returns P C msgs D). reflexivity.
Qed.

Lemma handleUartMessage_catches_domain_exceptions_witness :
  handle_all sample_protocol sample_collaborators
    [msg UartRxType.RESULT_PACKET []; msg UartRxType.CROWNSTONE_ID [x07]]
  = ([Log ERROR "Parse error: " (DExn (CrownstoneException "result packet too short"));
      Emit DevTopics_ownCrownstoneId (VInt 7)],
     Return tt).
Proof.
  destruct (handleUartMessage_catches_domain_exceptions sample_protocol
              sample_collaborators
              [msg UartRxType.RESULT_PACKET []; msg UartRxType.CROWNSTONE_ID [x07]]
              sample_collaborators_domain_failures)
    as (_ & _ & O & T).
  destruct (handle_all sample_protocol sample_collaborators
              [msg UartRxType.RESULT_PACKET []; msg UartRxType.CROWNSTONE_ID [x07]])
    as [t o].
  simpl in O, T. rewrite O, T. reflexivity.
Defined.

(** C2, as stated, fails: an exception of another class goes through
    [handleUartMessage].  A subscriber of the own-id topic that raises a
    [ValueError], or a decoder that raises an [IndexError], ends the dispatch
    with that exception, and the message that follows in the sequence is not
    handled. *)
Lemma handleUartMessage_other_exceptions_escape :
  handleUartMessage sample_protocol failing_subscriber
      (msg UartRxType.CROWNSTONE_ID [x07])
    = ([Emit DevTopics_ownCrownstoneId (VInt 7)],
       Raise (PyException "ValueError" "subscriber failed"))
  /\ handleUartMessage sample_protocol failing_decoder
       (msg UartRxType.RESULT_PACKET [])
     = ([], Raise (PyException "IndexError" "index out of range"))
  /\ handle_all sample_protocol failing_decoder
       [msg UartRxType.RESULT_PACKET []; msg UartRxType.CROWNSTONE_ID [x07]]
     = ([], Raise (PyException "IndexError" "index out of range")).
Proof. repeat split; vm_compute; reflexivity. Qed.

(* ------------------------------------------------------------------------- *)
(** ** The connection supervisor: iterating over the candidates *)

(** Run the manager on a state whose fields are known, leaving the answers of
    the surroundings and the accumulated history as they are. *)
Ltac run_manager :=
  cbv -[handshake comports get_running_loop String.append app].

(** C6.  With three enumerated candidates, the cursor at 0 and no port chosen
    yet, if the handshake fails on the first and on the second candidate and
    succeeds on the third, then [initialize()] returns (three units of fuel
    suffice) with [ready == True], the third candidate's device as the active
    port and the cursor at 2; exactly those three handshakes were made. *)
Theorem third_candidate_connects :
  forall (W : World) (s : UartManager) (c0 c1 c2 : Device)
         (baudrate : Z) (fuel : nat),
    _availablePorts s = [c0; c1; c2] ->
    _attemptingIndex s = 0%nat ->
    port s = None ->
    handshake W (handshakes s) c0 = false ->
    handshake W (S (handshakes s)) c1 = false ->
    handshake W (S (S (handshakes s))) c2 = true ->
    exists s' evs,
      initialize W (3 + fuel) None baudrate s = Returned s'
      /\ ready s' = true
      /\ port s' = Some c2
      /\ _attemptingIndex s' = 2%nat
      /\ _uartBridge s' = Some {| bridge_port := c2; bridge_baudRate := default_baudrate |}
      /\ history s' = history s ++ evs
      /\ handshakes_in evs = [(c0, false); (c1, false); (c2, true)].
Proof.
  intros W s c0 c1 c2 baudrate fuel Hports Hidx Hport H0 H1 H2.
  destruct s as [p b r tl ports idx br rdy en hs h].
  simpl in Hports, Hidx, Hport, H0, H1, H2. subst ports idx p.
  exists (match initialize W (3 + fuel) None baudrate
                  {| port := None; baudRate := b; running := r; _trackingLoop := tl;
                     _availablePorts := [c0; c1; c2]; _attemptingIndex := 0;
                     _uartBridge := br; ready := rdy; enumerations := en;
                     handshakes := hs; history := h |}
          with Returned s' => s' | _ => __init__ W None end).
  exists [ EvBridgeNew c0 baudrate; EvBridgeStart c0; EvBridgeStarting c0;
           EvHandshake c0 false; EvBridgeStop c0;
           EvBridgeNew c1 default_baudrate; EvBridgeStart c1; EvBridgeStarting c1;
           EvHandshake c1 false; EvBridgeStop c1;
           EvBridgeNew c2 default_baudrate; EvBridgeStart c2; EvBridgeStarting c2;
           EvHandshake c2 true;
           EvLogger INFO ("Connection established to " ++ c2);
           EvEnsureFuture TrackConnection ].
  destruct tl; run_manager; rewrite H0; run_manager; rewrite H1; run_manager;
    rewrite H2; run_manager; rewrite <- !app_assoc; repeat split.
Qed.

Lemma third_candidate_connects_witness :
  exists s',
    initialize three_ports_world 3 None 230400 (__init__ three_ports_world None)
      = Returned s'
    /\ ready s' = true
    /\ port s' = Some "/dev/ttyACM0"
    /\ _attemptingIndex s' = 2%nat.
Proof.
  destruct (third_candidate_connects three_ports_world
              (__init__ three_ports_world None)
              "/dev/ttyUSB0" "/dev/ttyUSB1" "/dev/ttyACM0" 230400 0
              eq_refl eq_refl eq_refl eq_refl eq_refl eq_refl)
    as (s' & evs & E & R & Pt & I & _).
  exists s'. repeat split; assumption.
Defined.

(* ------------------------------------------------------------------------- *)
(** ** The connection supervisor: how [ready] becomes true *)

Lemma find_port_spec (p : Device) (l : list Device) :
  forall i idx, find_port p l i = Some idx -> In p l.
Proof.
  induction l as [|x r IH]; simpl; intros i idx H; [discriminate|].
  destruct (String.eqb p x) eqn:E.
  - left. symmetry. now apply String.eqb_eq.
  - right. exact (IH _ _ H).
Qed.

Lemma find_port_nth (p : Device) (l : list Device) :
  forall i idx, find_port p l i = Some idx ->
    exists k, idx = (i + k)%nat /\ nth_error l k = Some p.
Proof.
  induction l as [|x r IH]; simpl; intros i idx H; [discriminate|].
  destruct (String.eqb p x) eqn:E.
  - inversion H; subst. exists 0%nat. split; [lia|].
    apply String.eqb_eq in E. subst. reflexivity.
  - destruct (IH _ _ H) as (k & -> & N). exists (S k). split; [lia | exact N].
Qed.

(** [setupConnection(port, False)] always connects. *)
Lemma setupConnection_skipping (W : World)
    (init : option Device -> Z -> UartManager -> Outcome)
    (dev : Device) (s : UartManager) :
  exists s',
    setupConnection_with W init dev false s = Returned s'
    /\ ready s' = true
    /\ port s' = Some dev
    /\ _uartBridge s' = Some {| bridge_port := dev; bridge_baudRate := baudRate s |}
    /\ _trackingLoop s' = _trackingLoop s
    /\ history s' = history s ++ connect_events dev (baudRate s) false.
Proof.
  eexists. split; [reflexivity|]. simpl. repeat split.
  rewrite <- !app_assoc. reflexivity.
Qed.

(** [setupConnection(port)] ends ready only through a handshake that
    succeeded, provided the same holds of the [initialize()] it falls back
    on. *)
Lemma setupConnection_handshaking (W : World)
    (init : option Device -> Z -> UartManager -> Outcome)
    (dev : Device) (s s' : UartManager) :
  (forall b s0 s1, init None b s0 = Returned s1 -> ready s1 = true ->
                   ready_by_handshake s0 s1) ->
  setupConnection_with W init dev true s = Returned s' ->
  ready s' = true ->
  ready_by_handshake s s'.
Proof.
  intros Hinit. unfold setupConnection_with.
  destruct (handshake W _ dev) eqn:Hs; cbn [negb fst snd].
  - intros E _. inversion E; subst; clear E.
    exists dev, (baudRate s), []. simpl. repeat split.
    rewrite <- !app_assoc. reflexivity.
  - intros E R. destruct (Hinit _ _ _ E R) as (d & b & pre & Hp & Hb & Hh).
    exists d, b.
    exists ([EvBridgeNew dev (baudRate s); EvBridgeStart dev; EvBridgeStarting dev;
             EvHandshake dev false; EvBridgeStop dev] ++ pre).
    repeat split; try assumption.
    rewrite Hh. simpl. rewrite <- !app_assoc. reflexivity.
Qed.

(** With no port chosen, the second half of [initialize] ends ready only
    through a handshake that succeeded. *)
Lemma initialize_tail_handshaking (W : World)
    (init : option Device -> Z -> UartManager -> Outcome) (s s' : UartManager) :
  (forall b s0 s1, init None b s0 = Returned s1 -> ready s1 = true ->
                   ready_by_handshake s0 s1) ->
  port s = None ->
  initialize_tail_with W init s = Returned s' ->
  ready s' = true ->
  ready_by_handshake s s'.
Proof.
  intros Hinit Hport. unfold initialize_tail_with. cbv zeta.
  set (s1 := match _trackingLoop s with
             | Some _ => s
             | None => set_trackingLoop (Some (get_running_loop W)) s
             end).
  assert (Hh : history s1 = history s) by (subst s1; destruct (_trackingLoop s); reflexivity).
  assert (Hp : port s1 = None) by (subst s1; destruct (_trackingLoop s); assumption).
  rewrite Hp.
  destruct (List.length (_availablePorts s1) <=? _attemptingIndex s1)%nat.
  - intros E R. destruct (Hinit _ _ _ E R) as (d & b & pre & Hd & Hb & H).
    exists d, b,
      ([EvLogger DEBUG "No Crownstone USB connected? Retrying..."; EvSleep 1;
        EvComports (comports W (enumerations s1))] ++ pre).
    repeat split; try assumption.
    rewrite H. unfold reset_fields, list_comports. simpl.
    rewrite Hh, <- !app_assoc. reflexivity.
  - unfold _attemptConnection_with.
    destruct (nth_error (_availablePorts s1) (_attemptingIndex s1)) as [dev|];
      [|discriminate].
    intros E R.
    destruct (setupConnection_handshaking W init dev s1 s' Hinit E R)
      as (d & b & pre & Hd & Hb & H).
    exists d, b, pre. repeat split; try assumption.
    rewrite H, Hh. reflexivity.
Qed.

(** With a port chosen, the second half of [initialize] changes nothing but
    the tracking loop. *)
Lemma initialize_tail_connected (W : World)
    (init : option Device -> Z -> UartManager -> Outcome)
    (s : UartManager) (dev : Device) :
  port s = Some dev ->
  exists s',
    initialize_tail_with W init s = Returned s'
    /\ port s' = port s /\ ready s' = ready s
    /\ _uartBridge s' = _uartBridge s /\ history s' = history s.
Proof.
  intro Hport. unfold initialize_tail_with. cbv zeta.
  destruct (_trackingLoop s); simpl; rewrite Hport;
    eexists; (split; [reflexivity|]); simpl; repeat split;
    first [ reflexivity | assumption | symmetry; assumption ].
Qed.

Lemma initialize_ready (W : World) :
  forall fuel port_arg baudrate s s',
    initialize W fuel port_arg baudrate s = Returned s' ->
    ready s' = true ->
    ready_by_handshake s s' \/ ready_by_skipped_handshake port_arg s s'.
Proof.
  induction fuel as [|fuel IH]; intros port_arg baudrate s s' E R; [discriminate|].
  assert (IHnone : forall b s0 s1,
             initialize W fuel None b s0 = Returned s1 -> ready s1 = true ->
             ready_by_handshake s0 s1).
  { intros b s0 s1 E0 R0.
    destruct (IH _ _ _ _ E0 R0) as [H|(d & bd & H & _)]; [exact H | discriminate H]. }
  cbn [initialize] in E. unfold initialize_with in E. cbv beta zeta in E.
  destruct port_arg as [p|].
  - destruct (find_port p _ 0) as [index|] eqn:F.
    + (* the port is among the candidates: connected without a handshake *)
      right.
      destruct (find_port_nth _ _ _ _ F) as (k & -> & N).
      pose proof (find_port_spec _ _ _ _ F) as I.
      unfold _attemptConnection_with in E. simpl in N, I, E. rewrite N in E.
      destruct (setupConnection_skipping W (initialize W fuel) p
                  (set_attemptingIndex k (set_ready false (set_baudRate baudrate s))))
        as (s2 & E2 & R2 & P2 & B2 & _ & H2).
      rewrite E2 in E.
      destruct (initialize_tail_connected W (initialize W fuel) s2 p P2)
        as (s3 & E3 & P3 & R3 & B3 & H3).
      rewrite E3 in E. inversion E; subst s3.
      exists p, baudrate. repeat split; try assumption.
      * now rewrite P3.
      * now rewrite B3.
      * now rewrite H3.
    + (* not among the candidates: attempted with a handshake *)
      left.
      destruct (setupConnection_handshaking W (initialize W fuel) p _ s' IHnone E R)
        as (d & b & pre & Hd & Hb & H).
      exists d, b, pre. repeat split; assumption.
  - left.
    destruct (port s) as [dev|] eqn:Hport.
    + destruct (initialize_tail_connected W (initialize W fuel)
                  (set_ready false (set_baudRate baudrate s)) dev Hport)
        as (s3 & E3 & _ & R3 & _).
      rewrite E3 in E. inversion E; subst s3. simpl in R3. congruence.
    + destruct (initialize_tail_handshaking W (initialize W fuel)
                  (set_ready false (set_baudRate baudrate s)) s' IHnone Hport E R)
        as (d & b & pre & Hd & Hb & H).
      exists d, b, pre. repeat split; assumption.
Qed.

(** C1, as the code has it.  A run of [initialize] (or of [setupConnection])
    that returns with [ready == True] ended in one of two ways: by a handshake
    that succeeded on the bridge just opened to the active port, or, when
    [initialize] was given a port that is among the enumerated candidates (when
    [setupConnection] was called with [handshake=False]), by opening the bridge
    to that port with the handshake skipped. *)
Theorem ready_by_handshake_or_skip :
  forall (W : World) (fuel : nat) (port_arg : option Device) (baudrate : Z)
         (dev : Device) (handshake_arg : bool) (s s' : UartManager),
    ready s' = true ->
    (initialize W fuel port_arg baudrate s = Returned s' ->
     ready_by_handshake s s' \/ ready_by_skipped_handshake port_arg s s')
    /\ (setupConnection W fuel dev handshake_arg s = Returned s' ->
        ready_by_handshake s s'
        \/ (handshake_arg = false
            /\ port s' = Some dev
            /\ history s' = history s ++ connect_events dev (baudRate s) false)).
Proof.
  intros W fuel port_arg baudrate dev handshake_arg s s' R. split.
  - intro E. exact (initialize_ready W fuel port_arg baudrate s s' E R).
  - unfold setupConnection. destruct handshake_arg.
    + intro E. left.
      apply (setupConnection_handshaking W (initialize W fuel) dev s s'); try assumption.
      intros b s0 s1 E0 R0.
      destruct (initialize_ready W fuel None b s0 s1 E0 R0) as [H|(d & bd & H & _)];
        [exact H | discriminate H].
    + intro E. right.
      destruct (setupConnection_skipping W (initialize W fuel) dev s)
        as (s2 & E2 & _ & P2 & _ & _ & H2).
      rewrite E2 in E. inversion E; subst s2. repeat split; assumption.
Qed.

Lemma ready_by_handshake_or_skip_witness :
  exists s',
    initialize three_ports_world 3 None 230400 (__init__ three_ports_world None)
      = Returned s'
    /\ (ready_by_handshake (__init__ three_ports_world None) s'
        \/ ready_by_skipped_handshake None (__init__ three_ports_world None) s').
Proof.
  destruct (initialize three_ports_world 3 None 230400
              (__init__ three_ports_world None)) as [s'| |] eqn:E;
    try (vm_compute in E; discriminate E).
  assert (R : ready s' = true)
    by (vm_compute in E; inversion E; reflexivity).
  exists s'. split; [reflexivity|].
  exact (proj1 (ready_by_handshake_or_skip three_ports_world 3 None 230400
                  "/dev/ttyACM0" true (__init__ three_ports_world None) s' R) E).
Defined.

(** C1, as stated, fails: asked for a port that is among the candidates,
    [initialize] opens the bridge with [handshake=False] and sets [ready]
    without any handshake having been made (here on a port that would not have
    answered one). *)
Lemma ready_without_handshake :
  exists s',
    initialize three_ports_world 1 (Some "/dev/ttyUSB1") 230400
      (__init__ three_ports_world None) = Returned s'
    /\ ready s' = true
    /\ port s' = Some "/dev/ttyUSB1"
    /\ handshakes_in (history s') = []
    /\ handshakes s' = 0%nat
    /\ handshake three_ports_world 0 "/dev/ttyUSB1" = false.
Proof. eexists. split; [vm_compute; reflexivity|]. repeat split. Qed.

(* ------------------------------------------------------------------------- *)
(** ** The connection supervisor: running out of candidates *)

(** C7, as the code has it.  When [initialize] is called without a port, no
    port is active ([self.port is None]) and the cursor is at or past the end
    of the candidate list (an empty list included), the call does not fail at
    that point: it logs, sleeps once for 1 second, and calls [reset], which
    puts the cursor back to 0, enumerates the ports again, forgets the bridge
    and the port, and calls [initialize()]; [ready] is false when that call is
    made, and nothing else happened to the outside. *)
Theorem exhausted_candidates_back_off :
  forall (W : World) (fuel : nat) (baudrate : Z) (s : UartManager),
    port s = None ->
    (List.length (_availablePorts s) <= _attemptingIndex s)%nat ->
    exists s1 s2,
      initialize W (S fuel) None baudrate s = reset W fuel s1
      /\ history s1 = history s
           ++ [EvLogger DEBUG "No Crownstone USB connected? Retrying..."; EvSleep 1]
      /\ s2 = reset_fields W s1
      /\ reset W fuel s1 = initialize W fuel None default_baudrate s2
      /\ history s2 = history s1 ++ [EvComports (comports W (enumerations s))]
      /\ sleeps_in (history s2) = sleeps_in (history s) ++ [1]
      /\ _availablePorts s2 = comports W (enumerations s)
      /\ _attemptingIndex s2 = 0%nat
      /\ _uartBridge s2 = None
      /\ port s2 = None
      /\ ready s2 = false.
Proof.
  intros W fuel baudrate s Hport Hlen.
  apply Nat.leb_le in Hlen.
  destruct s as [p b r tl ports idx br rdy en hs h].
  simpl in Hport, Hlen. subst p.
  cbn [initialize]. unfold initialize_with, initialize_tail_with, reset.
  destruct tl as [l|]; simpl; rewrite Hlen;
    eexists; eexists; (split; [reflexivity|]); simpl;
    (split; [rewrite <- !app_assoc; reflexivity|]);
    (split; [reflexivity|]); simpl;
    repeat split;
    unfold sleeps_in; rewrite !flat_map_app; simpl; rewrite !app_nil_r; reflexivity.
Qed.

Lemma exhausted_candidates_back_off_witness :
  exists s1,
    initialize no_ports_world 4 None 230400 (__init__ no_ports_world None)
      = reset no_ports_world 3 s1
    /\ history s1 = history (__init__ no_ports_world None)
         ++ [EvLogger DEBUG "No Crownstone USB connected? Retrying..."; EvSleep 1].
Proof.
  assert (L : (List.length (_availablePorts (__init__ no_ports_world None))
               <= _attemptingIndex (__init__ no_ports_world None))%nat)
    by (simpl; lia).
  destruct (exhausted_candidates_back_off no_ports_world 3 230400
              (__init__ no_ports_world None) eq_refl L)
    as (s1 & s2 & E & H & _).
  exists s1. split; assumption.
Defined.

(** C7, as stated, fails: with an active port, [initialize()] skips the whole
    branch.  A manager that connected to a port given by the caller while
    nothing was enumerated has its cursor at the end of the (empty) candidate
    list; calling [initialize()] on it returns at once, with the history as it
    was: no sleep, and no enumeration besides the constructor's. *)
Lemma exhausted_candidates_no_back_off :
  initialize no_ports_world 1 (Some "/dev/ttyACM0") 230400
      (__init__ no_ports_world None) = Returned connected_to_unlisted
  /\ (List.length (_availablePorts connected_to_unlisted)
      <= _attemptingIndex connected_to_unlisted)%nat
  /\ initialize no_ports_world 5 None 230400 connected_to_unlisted
     = Returned (set_trackingLoop (Some (get_running_loop no_ports_world))
                   (set_ready false connected_to_unlisted))
  /\ sleeps_in (history connected_to_unlisted) = []
  /\ enumerations_in (history connected_to_unlisted) = [[]].
Proof.
  split; [vm_compute; reflexivity|].
  split; [vm_compute; lia|].
  split; [vm_compute; reflexivity|].
  split; vm_compute; reflexivity.
Qed.

(* ------------------------------------------------------------------------- *)
(** ** The connection supervisor: the liveness watch and [stop] *)

Lemma setupConnection_running (W : World)
    (init : option Device -> Z -> UartManager -> Outcome)
    (dev : Device) (h : bool) (s s' : UartManager) :
  (forall p b s0 s1, init p b s0 = Returned s1 -> running s1 = running s0) ->
  setupConnection_with W init dev h s = Returned s' ->
  running s' = running s.
Proof.
  intros Hinit. unfold setupConnection_with.
  destruct h; [destruct (handshake W _ dev)|]; cbn [negb]; intro E;
    try (inversion E; subst; reflexivity).
  apply Hinit in E. exact E.
Qed.

Lemma initialize_tail_running (W : World)
    (init : option Device -> Z -> UartManager -> Outcome) (s s' : UartManager) :
  (forall p b s0 s1, init p b s0 = Returned s1 -> running s1 = running s0) ->
  initialize_tail_with W init s = Returned s' ->
  running s' = running s.
Proof.
  intros Hinit. unfold initialize_tail_with. cbv zeta.
  set (s1 := match _trackingLoop s with
             | Some _ => s
             | None => set_trackingLoop (Some (get_running_loop W)) s
             end).
  assert (Hr : running s1 = running s)
    by (subst s1; destruct (_trackingLoop s); reflexivity).
  destruct (port s1).
  - intro E. inversion E; subst. exact Hr.
  - destruct (List.length (_availablePorts s1) <=? _attemptingIndex s1)%nat.
    + intro E. apply Hinit in E. rewrite E. exact Hr.
    + unfold _attemptConnection_with.
      destruct (nth_error (_availablePorts s1) (_attemptingIndex s1)) as [dev|];
        [|discriminate].
      intro E. apply (setupConnection_running W init dev true s1 s' Hinit) in E.
      rewrite E. exact Hr.
Qed.

(** Nothing in [initialize], [setupConnection] or [reset] writes [running]. *)
Lemma initialize_running (W : World) :
  forall fuel port_arg baudrate s s',
    initialize W fuel port_arg baudrate s = Returned s' ->
    running s' = running s.
Proof.
  induction fuel as [|fuel IH]; intros port_arg baudrate s s' E; [discriminate|].
  cbn [initialize] in E. unfold initialize_with in E. cbv beta zeta in E.
  destruct port_arg as [p|].
  - destruct (find_port p _ 0) as [index|].
    + unfold _attemptConnection_with in E.
      destruct (nth_error _ _) as [dev|]; [|discriminate].
      destruct (setupConnection_with W (initialize W fuel) dev false _)
        as [s2| |] eqn:E2; try discriminate.
      apply (setupConnection_running W _ dev false _ s2 (IH)) in E2.
      apply (initialize_tail_running W _ s2 s' IH) in E.
      rewrite E, E2. reflexivity.
    + apply (setupConnection_running W _ p true _ s' IH) in E. exact E.
  - apply (initialize_tail_running W _ _ s' IH) in E. exact E.
Qed.

(** C8.  [stop] clears the running flag, and no run of [initialize] or [reset]
    sets it again.  When the liveness future of the bridge resolves, the
    continuation of [trackConnection] looks at the flag as it is then: if it is
    false, nothing is handed to the event loop; if it is true, exactly one
    [reset] is, and running that task enumerates the ports once more, puts the
    cursor to 0, forgets bridge and port, and calls [initialize()]. *)
Theorem liveness_watch_respects_stop :
  forall (W : World) (meanwhile : UartManager -> UartManager)
         (s : UartManager) (bridge : UartBridge),
    _uartBridge s = Some bridge ->
    running (stop s) = false
    /\ (forall fuel port_arg baudrate s0 s1,
           initialize W fuel port_arg baudrate (stop s0) = Returned s1 ->
           running s1 = false)
    /\ (forall fuel s0 s1, reset W fuel (stop s0) = Returned s1 -> running s1 = false)
    /\ (running (meanwhile s) = false ->
        exists s',
          trackConnection meanwhile s = Returned s'
          /\ history s' = history (meanwhile s) ++ [EvIsAlive (bridge_port bridge)]
          /\ ensured [EvIsAlive (bridge_port bridge)] = []
          /\ enumerations s' = enumerations (meanwhile s)
          /\ _availablePorts s' = _availablePorts (meanwhile s))
    /\ (running (meanwhile s) = true ->
        exists s',
          trackConnection meanwhile s = Returned s'
          /\ history s' = history (meanwhile s)
               ++ [EvIsAlive (bridge_port bridge); EvEnsureFuture Reset]
          /\ ensured [EvIsAlive (bridge_port bridge); EvEnsureFuture Reset] = [Reset]
          /\ (forall fuel f,
                 run_task W fuel f Reset s'
                 = initialize W fuel None default_baudrate (reset_fields W s'))
          /\ history (reset_fields W s')
             = history s' ++ [EvComports (comports W (enumerations s'))]
          /\ _availablePorts (reset_fields W s') = comports W (enumerations s')
          /\ _attemptingIndex (reset_fields W s') = 0%nat
          /\ _uartBridge (reset_fields W s') = None
          /\ port (reset_fields W s') = None).
Proof.
  intros W meanwhile s bridge Hb.
  assert (Hstop : forall s0, running (stop s0) = false).
  { intro s0. unfold stop. simpl. destruct (_uartBridge s0); reflexivity. }
  split; [apply Hstop|].
  split.
  { intros fuel port_arg baudrate s0 s1 E.
    rewrite (initialize_running W _ _ _ _ _ E). apply Hstop. }
  split.
  { intros fuel s0 s1 E. unfold reset in E.
    rewrite (initialize_running W _ _ _ _ _ E).
    unfold reset_fields, list_comports. simpl. apply Hstop. }
  unfold trackConnection. rewrite Hb. simpl.
  split; intro R; rewrite R; eexists; (split; [reflexivity|]); simpl.
  - repeat split.
  - rewrite <- !app_assoc. repeat split.
Qed.

Lemma liveness_watch_respects_stop_witness :
  (exists s',
      trackConnection stop connected_to_third = Returned s'
      /\ history s' = history (stop connected_to_third) ++ [EvIsAlive "/dev/ttyACM0"])
  /\ (exists s',
         trackConnection (fun s => s) connected_to_third = Returned s'
         /\ history s' = history connected_to_third
              ++ [EvIsAlive "/dev/ttyACM0"; EvEnsureFuture Reset]).
Proof.
  assert (B : _uartBridge connected_to_third
              = Some {| bridge_port := "/dev/ttyACM0"; bridge_baudRate := 230400 |})
    by (vm_compute; reflexivity).
  assert (R0 : running (stop connected_to_third) = false)
    by (vm_compute; reflexivity).
  assert (R1 : running connected_to_third = true)
    by (vm_compute; reflexivity).
  split.
  - destruct (liveness_watch_respects_stop three_ports_world stop
                connected_to_third _ B) as (_ & _ & _ & Hoff & _).
    destruct (Hoff R0) as (s' & E & H & _). exists s'. split; assumption.
  - destruct (liveness_watch_respects_stop three_ports_world (fun s => s)
                connected_to_third _ B) as (_ & _ & _ & _ & Hon).
    destruct (Hon R1) as (s' & E & H & _). exists s'. split; assumption.
Defined.

(* ========================================================================= *)
(** * Further properties of the dispatcher *)

Lemma shape_silent (C : Collaborators) (c : M unit) :
  bus_events (trace c) = [] -> dispatch_shape C c.
Proof. intro H. left. exact H. Qed.

Lemma shape_emit (C : Collaborators) (topic : Topic) (v : Value) :
  dispatch_shape C (emit C topic v).
Proof.
  right. exists [], topic, v. repeat split.
Qed.

Lemma shape_call_emit (C : Collaborators) (r : result Value) (topic : Topic) :
  dispatch_shape C (bind (call r) (fun v => emit C topic v)).
Proof.
  destruct r as [v|e]; [|left; reflexivity].
  right. exists [], topic, v. repeat split.
Qed.

Lemma shape_log_call_emit (C : Collaborators) (lvl : Level) (text : string)
    (d : LogData) (r : result Value) (topic : Topic) :
  dispatch_shape C
    (bind (log lvl text d) (fun _ => bind (call r) (fun v => emit C topic v))).
Proof.
  destruct r as [v|e]; [|left; reflexivity].
  right. exists [Log lvl text d], topic, v. repeat split.
Qed.

(** Every run of the opcode switch has the shape above, for every opcode,
    payload and choice of collaborators. *)
Lemma _handleUartMessage_shape (P : Protocol) (C : Collaborators)
    (m : UartMessagePacket) :
  dispatch_shape C (_handleUartMessage P C m).
Proof.
  unfold _handleUartMessage. cbv zeta beta.
  repeat match goal with
         | |- dispatch_shape _ (if ?b then _ else _) => destruct b eqn:?
         end;
    try (apply shape_silent; reflexivity);
    try apply shape_emit;
    try apply shape_call_emit;
    try apply shape_log_call_emit.
  - (* MESH_SERVICE_DATA *)
    destruct (parseOpcode7 C (payload m)) as [result|e]; [|left; reflexivity].
    unfold call, bind, log. cbn [fst snd].
    destruct (getattr result "crownstoneId") as [cid|].
    + right. exists [Log DEBUG "Received service data: " (DValue result)],
        SystemTopics_stateUpdate, (VTuple [cid; result]). repeat split.
    + left. reflexivity.
  - (* MESH_RESULT *)
    destruct (getitem (payload m) 0) as [b|e]; [|left; reflexivity].
    unfold call, bind. cbn [fst snd].
    destruct (ResultPacket C (skipn 1 (payload m))) as [packet|e];
      [|left; reflexivity].
    right. exists [], SystemTopics_meshResultPacket,
      (VList [VInt (byte_val b); packet]). repeat split.
  - (* MAC_ADDRESS *)
    destruct (uint8_array_to_address C (payload m)) as [addr|e]; [|left; reflexivity].
    unfold call, bind. destruct (ne_empty_str addr).
    + right. exists [], DevTopics_ownMacAddress, addr. repeat split.
    + left. reflexivity.
Qed.

Lemma bus_events_app (a b : list Effect) :
  bus_events (a ++ b) = bus_events a ++ bus_events b.
Proof. unfold bus_events. apply filter_app. Qed.

(** X1.  One message gives at most one emission: the opcode switch, and
    [handleUartMessage] around it, put at most one value on the bus, for every
    opcode, payload and choice of collaborators. *)
Theorem at_most_one_emission_per_message :
  forall (P : Protocol) (C : Collaborators) (m : UartMessagePacket),
    (List.length (bus_events (trace (_handleUartMessage P C m))) <= 1)%nat
    /\ (List.length (bus_events (trace (handleUartMessage P C m))) <= 1)%nat
    /\ bus_events (trace (handleUartMessage P C m))
       = bus_events (trace (_handleUartMessage P C m)).
Proof.
  intros P C m.
  assert (L : (List.length (bus_events (trace (_handleUartMessage P C m))) <= 1)%nat).
  { destruct (_handleUartMessage_shape P C m) as [H|(pre & tp & v & T & Hpre & _)].
    - rewrite H. simpl. lia.
    - rewrite T, bus_events_app, Hpre. simpl. lia. }
  assert (E : bus_events (trace (handleUartMessage P C m))
              = bus_events (trace (_handleUartMessage P C m))).
  { unfold handleUartMessage.
    destruct (_handleUartMessage P C m) as [t [[]|[text|cls text]]]; try reflexivity.
    simpl. rewrite bus_events_app. simpl. apply app_nil_r. }
  repeat split; [exact L | rewrite E; exact L | exact E].
Qed.

(** X2.  A failure inside the opcode switch leaves no half-done emission: when
    the switch raises, either nothing was emitted (a decoder failed before the
    emission), or the one value was emitted and the exception is the one its
    subscribers raised. *)
Theorem failed_dispatch_emitted_nothing_or_subscriber_failed :
  forall (P : Protocol) (C : Collaborators) (m : UartMessagePacket) (e : exn),
    outcome (_handleUartMessage P C m) = Raise e ->
    bus_events (trace (_handleUartMessage P C m)) = []
    \/ exists topic v,
         bus_events (trace (_handleUartMessage P C m)) = [Emit topic v]
         /\ subscribers C topic v = Some e.
Proof.
  intros P C m e H.
  destruct (_handleUartMessage_shape P C m) as [S|(pre & tp & v & T & Hpre & O)].
  - left. exact S.
  - right. exists tp, v. split.
    + rewrite T, bus_events_app, Hpre. reflexivity.
    + rewrite H in O. destruct (subscribers C tp v); congruence.
Qed.

Lemma failed_dispatch_emitted_nothing_or_subscriber_failed_witness :
  bus_events (trace (_handleUartMessage sample_protocol failing_decoder
                       (msg UartRxType.RESULT_PACKET []))) = []
  \/ exists topic v,
       bus_events (trace (_handleUartMessage sample_protocol failing_decoder
                            (msg UartRxType.RESULT_PACKET []))) = [Emit topic v]
       /\ subscribers failing_decoder topic v
          = Some (PyException "IndexError" "index out of range").
Proof.
  apply (failed_dispatch_emitted_nothing_or_subscriber_failed sample_protocol
           failing_decoder (msg UartRxType.RESULT_PACKET [])).
  vm_compute. reflexivity.
Defined.

(** Take a run of the dispatcher apart along the answers of the collaborators. *)
Ltac decode_all :=
  unfold handleUartMessage, bind, call, log, emit, pass, ret, print, trace,
    outcome, getitem;
  cbn [fst snd]; cbv beta iota;
  repeat (match goal with
          | |- context [match ?r with Return _ => _ | Raise _ => _ end] => destruct r
          | |- context [match ?o with Some _ => _ | None => _ end] => destruct o
          | |- context [match ?e with
                        | CrownstoneException _ => _
                        | PyException _ _ => _
                        end] => destruct e
          | |- context [if ?b then _ else _] => destruct b
          | |- context [let (_, _) := ?c in _] => destruct c
          end; cbn [fst snd]; cbv beta iota).

(** X3.  The routing of the dispatcher.  Whatever a message with the opcode of
    a known member puts on the bus goes to the one topic of that member
    ([topic_of]); a member without a topic never emits. *)
Theorem emissions_follow_routing_table :
  forall (P : Protocol) (C : Collaborators) (x : UartRxType.t) (p : list byte)
         (e : Effect),
    well_numbered P = true ->
    In e (bus_events (trace (handleUartMessage P C
                               {| opCode := rx P x; payload := p |}))) ->
    match topic_of x with
    | Some topic => exists v, e = Emit topic v
    | None => False
    end.
Proof.
  intros P C x p e WN.
  destruct x; unfold handleUartMessage; dispatch_member WN; cbn [topic_of];
    decode_all; simpl; intro H;
    repeat match goal with
           | H : _ \/ _ |- _ => destruct H
           | H : False |- _ => contradiction
           end; subst; eauto.
Qed.

Lemma emissions_follow_routing_table_witness :
  exists v, Emit DevTopics_ownCrownstoneId (VInt 7) = Emit DevTopics_ownCrownstoneId v.
Proof.
  assert (WN : well_numbered sample_protocol = true) by (vm_compute; reflexivity).
  assert (I : In (Emit DevTopics_ownCrownstoneId (VInt 7))
                (bus_events (trace (handleUartMessage sample_protocol sample_collaborators
                   {| opCode := rx sample_protocol UartRxType.CROWNSTONE_ID;
                      payload := [x07] |}))))
    by (vm_compute; left; reflexivity).
  exact (emissions_follow_routing_table sample_protocol sample_collaborators
           UartRxType.CROWNSTONE_ID [x07] _ WN I).
Defined.

(** X4.  The members without a topic are handled without any collaborator:
    whatever the decoders and subscribers would do, the dispatch returns
    normally and emits nothing, and only [ASCII_LOG] prints. *)
Theorem members_without_topic_are_ignored :
  forall (P : Protocol) (C : Collaborators) (x : UartRxType.t) (p : list byte),
    well_numbered P = true ->
    topic_of x = None ->
    outcome (handleUartMessage P C {| opCode := rx P x; payload := p |}) = Return tt
    /\ bus_events (trace (handleUartMessage P C {| opCode := rx P x; payload := p |})) = []
    /\ (x <> UartRxType.ASCII_LOG ->
        filter is_print
          (trace (handleUartMessage P C {| opCode := rx P x; payload := p |})) = []).
Proof.
  intros P C x p WN T.
  destruct x; try discriminate T; unfold handleUartMessage; dispatch_member WN;
    (split; [reflexivity|]); (split; [reflexivity|]);
    intro N; try reflexivity.
  contradiction N. reflexivity.
Qed.

Lemma members_without_topic_are_ignored_witness :
  outcome (handleUartMessage sample_protocol failing_decoder
             (msg UartRxType.HEARTBEAT [x01; x02])) = Return tt.
Proof.
  assert (WN : well_numbered sample_protocol = true) by (vm_compute; reflexivity).
  exact (proj1 (members_without_topic_are_ignored sample_protocol failing_decoder
                  UartRxType.HEARTBEAT [x01; x02] WN eq_refl)).
Defined.

(* ------------------------------------------------------------------------- *)
(** ** No feedback onto the input topics *)

(** X5.  The opcode switch never emits on the two topics the parser itself
    listens to ([uartNewPackage] and [uartNewMessage]), for any opcode, payload
    and choice of collaborators: handling a message cannot trigger the parser
    again. *)
Theorem dispatch_never_feeds_back :
  forall (P : Protocol) (C : Collaborators) (m : UartMessagePacket) (e : Effect),
    In e (bus_events (trace (handleUartMessage P C m))) ->
    exists topic v,
      e = Emit topic v
      /\ topic <> SystemTopics_uartNewMessage
      /\ topic <> SystemTopics_uartNewPackage.
Proof.
  intros P C m e. unfold handleUartMessage, _handleUartMessage. cbv zeta beta.
  repeat match goal with
         | |- context [if ?b then _ else _] => destruct b
         end;
    decode_all; simpl; intro H;
    repeat match goal with
           | H : _ \/ _ |- _ => destruct H
           | H : False |- _ => contradiction
           end; subst;
    eexists; eexists; (split; [reflexivity|]); split; discriminate.
Qed.

Lemma dispatch_never_feeds_back_witness :
  exists topic v,
    Emit DevTopics_ownCrownstoneId (VInt 7) = Emit topic v
    /\ topic <> SystemTopics_uartNewMessage
    /\ topic <> SystemTopics_uartNewPackage.
Proof.
  assert (I : In (Emit DevTopics_ownCrownstoneId (VInt 7))
                (bus_events (trace (handleUartMessage sample_protocol sample_collaborators
                                      (msg UartRxType.CROWNSTONE_ID [x07])))))
    by (vm_compute; left; reflexivity).
  exact (dispatch_never_feeds_back sample_protocol sample_collaborators
           (msg UartRxType.CROWNSTONE_ID [x07]) _ I).
Defined.

(* ------------------------------------------------------------------------- *)
(** ** Frame validation, end to end *)

Lemma handleUartMessage_bus_events (P : Protocol) (C : Collaborators)
    (m : UartMessagePacket) :
  bus_events (trace (handleUartMessage P C m))
  = bus_events (trace (_handleUartMessage P C m)).
Proof.
  unfold handleUartMessage.
  destruct (_handleUartMessage P C m) as [t [[]|[text|cls text]]]; try reflexivity.
  simpl. rewrite bus_events_app. simpl. apply app_nil_r.
Qed.

Lemma handleUartMessage_at_most_one (P : Protocol) (C : Collaborators)
    (m : UartMessagePacket) :
  (List.length (bus_events (trace (handleUartMessage P C m))) <= 1)%nat.
Proof.
  rewrite handleUartMessage_bus_events.
  destruct (_handleUartMessage_shape P C m) as [H|(pre & tp & v & T & Hpre & _)].
  - rewrite H. simpl. lia.
  - rewrite T, bus_events_app, Hpre. simpl. lia.
Qed.

Lemma trace_bind {A B : Type} (c : M A) (k : A -> M B) :
  exists t, trace (bind c k) = trace c ++ t
            /\ (forall a, outcome c = Return a -> t = trace (k a))
            /\ (forall e, outcome c = Raise e -> t = []).
Proof.
  destruct c as [t [a|e]]; unfold bind; simpl.
  - destruct (k a) as [t' r] eqn:E. exists t'. repeat split.
    + intros a0 H. inversion H; subst. rewrite E. reflexivity.
    + intros e H. discriminate H.
  - exists []. rewrite app_nil_r. repeat split.
    intros a H. discriminate H.
Qed.

(** What [emit_uartNewMessage] puts on the bus: the message, then what its
    dispatch emits. *)
Lemma emit_uartNewMessage_bus_events (P : Protocol) (C : Collaborators)
    (m : UartMessagePacket) :
  bus_events (trace (emit_uartNewMessage P C m))
  = Emit SystemTopics_uartNewMessage (message_value m)
    :: bus_events (trace (handleUartMessage P C m)).
Proof.
  unfold emit_uartNewMessage, bind, call. cbn [fst snd].
  destruct (handleUartMessage P C m) as [t [[]|e]]; cbn [fst snd trace].
  - destruct (subscribers C SystemTopics_uartNewMessage (message_value m));
      simpl; rewrite ?app_nil_r; reflexivity.
  - reflexivity.
Qed.

(** X6.  When [parse] emits.  A wrapper packet leads to an emission exactly
    when its major version is the supported one, its message type is
    [UART_MESSAGE] and its payload decodes to a message: then the message goes
    out on the new-message topic first, followed by what its dispatch emits, at
    most two emissions in all.  In every other case nothing is emitted. *)
Theorem parse_emits_exactly_for_valid_plain_frames :
  forall (P : Protocol) (C : Collaborators) (w : UartWrapperPacket),
    (forall m,
        protocolMajor w = PROTOCOL_MAJOR P ->
        messageType w = mt P UartMessageType.UART_MESSAGE ->
        UartMessagePacket_parse C (wrapperPayload w) = Some m ->
        bus_events (trace (parse P C (AWrapperPacket w)))
        = Emit SystemTopics_uartNewMessage (message_value m)
          :: bus_events (trace (handleUartMessage P C m))
        /\ (List.length (bus_events (trace (parse P C (AWrapperPacket w)))) <= 2)%nat)
    /\ (bus_events (trace (parse P C (AWrapperPacket w))) <> [] ->
        protocolMajor w = PROTOCOL_MAJOR P
        /\ messageType w = mt P UartMessageType.UART_MESSAGE
        /\ exists m, UartMessagePacket_parse C (wrapperPayload w) = Some m).
Proof.
  intros P C w. split.
  - intros m Hmaj Htyp Hdec. unfold parse.
    rewrite Hmaj, Z.eqb_refl, Htyp, Z.eqb_refl, Hdec. cbn [negb].
    rewrite emit_uartNewMessage_bus_events. split; [reflexivity|].
    simpl. pose proof (handleUartMessage_at_most_one P C m). lia.
  - unfold parse.
    destruct (protocolMajor w =? PROTOCOL_MAJOR P) eqn:Emaj; cbn [negb];
      [|intro H; contradiction H; reflexivity].
    destruct (messageType w =? mt P UartMessageType.UART_MESSAGE) eqn:Etyp.
    + destruct (UartMessagePacket_parse C (wrapperPayload w)) as [m|] eqn:Edec;
        [|intro H; contradiction H; reflexivity].
      intros _. apply Z.eqb_eq in Emaj, Etyp. repeat split; try assumption.
      exists m. reflexivity.
    + destruct (messageType w =? mt P UartMessageType.ENCRYPTED_UART_MESSAGE);
        intro H; contradiction H; reflexivity.
Qed.

Lemma parse_emits_exactly_for_valid_plain_frames_witness :
  bus_events (trace (parse sample_protocol sample_collaborators
                       (AWrapperPacket {| protocolMajor := 1; protocolMinor := 0;
                                          messageType := 0;
                                          wrapperPayload := [x52; xc3; x07] |})))
  = [Emit SystemTopics_uartNewMessage
       (message_value {| opCode := 50002; payload := [x07] |});
     Emit DevTopics_ownCrownstoneId (VInt 7)].
Proof.
  destruct (parse_emits_exactly_for_valid_plain_frames sample_protocol
              sample_collaborators
              {| protocolMajor := 1; protocolMinor := 0; messageType := 0;
                 wrapperPayload := [x52; xc3; x07] |}) as [H _].
  destruct (H {| opCode := 50002; payload := [x07] |} eq_refl eq_refl eq_refl)
    as [E _].
  rewrite E. vm_compute. reflexivity.
Defined.

(** X7.  What [parse] raises.  An argument that is not a wrapper packet gives
    a [TypeError] and no effect.  A wrapper packet never makes [parse] raise
    when the collaborators fail only with [CrownstoneException]s and the other
    subscribers of the new-message topic let nothing escape. *)
Theorem parse_raises_only_on_wrong_type :
  forall (P : Protocol) (C : Collaborators) (w : UartWrapperPacket)
         (typeName : string),
    domain_failures C ->
    (forall v, subscribers C SystemTopics_uartNewMessage v = None) ->
    outcome (parse P C (AWrapperPacket w)) = Return tt
    /\ parse P C (AOther typeName)
       = ([], Raise (PyException "TypeError" ("Invalid type: " ++ typeName))).
Proof.
  intros P C w typeName D S. split; [|reflexivity].
  unfold parse.
  destruct (negb (protocolMajor w =? PROTOCOL_MAJOR P)); [reflexivity|].
  destruct (messageType w =? mt P UartMessageType.UART_MESSAGE).
  - destruct (UartMessagePacket_parse C (wrapperPayload w)) as [m|]; [|reflexivity].
    unfold emit_uartNewMessage, bind, call. cbn [fst snd].
    pose proof (handleUartMessage_returns P C m D) as R.
    destruct (handleUartMessage P C m) as [t o]. simpl in R. subst o.
    rewrite S. reflexivity.
  - destruct (messageType w =? mt P UartMessageType.ENCRYPTED_UART_MESSAGE);
      reflexivity.
Qed.

Lemma parse_raises_only_on_wrong_type_witness :
  outcome (parse sample_protocol sample_collaborators
             (AWrapperPacket {| protocolMajor := 1; protocolMinor := 0;
                                messageType := 0;
                                wrapperPayload := [x04; x00] |})) = Return tt.
Proof.
  exact (proj1 (parse_raises_only_on_wrong_type sample_protocol sample_collaborators
                  {| protocolMajor := 1; protocolMinor := 0; messageType := 0;
                     wrapperPayload := [x04; x00] |} "bytes"
                  sample_collaborators_domain_failures (fun _ => eq_refl))).
Defined.

(* ------------------------------------------------------------------------- *)
(** ** The text branches: [UART_MESSAGE] and [ASCII_LOG] *)

Lemma string_append_assoc (a b c : string) :
  ((a ++ b) ++ c)%string = (a ++ (b ++ c))%string.
Proof. induction a as [|x a IH]; simpl; [reflexivity | now rewrite IH]. Qed.

Lemma string_append_nil_r (a : string) : (a ++ "")%string = a.
Proof. induction a as [|x a IH]; simpl; [reflexivity | now rewrite IH]. Qed.

Lemma chr_loop_spec (keep : byte -> bool) (p : list byte) (acc : string) :
  fold_left (fun acc b => if keep b then (acc ++ chr b)%string else acc) p acc
  = (acc ++ string_of_list_byte (filter keep p))%string.
Proof.
  revert acc. induction p as [|b r IH]; intro acc; simpl.
  - symmetry. apply string_append_nil_r.
  - rewrite IH. destruct (keep b); [|reflexivity].
    unfold chr. rewrite string_append_assoc. reflexivity.
Qed.

Lemma chr_all_spec (p : list byte) : chr_all p = string_of_list_byte p.
Proof.
  pose proof (chr_loop_spec (fun _ => true) p "") as H.
  cbv beta iota in H. simpl in H.
  replace (filter (fun _ : byte => true) p) with p in H; [exact H|].
  clear H. induction p as [|b r IH]; simpl; [reflexivity | now rewrite <- IH].
Qed.

Lemma chr_ascii_spec (p : list byte) :
  chr_ascii p = string_of_list_byte (filter (fun b => (byte_val b <? 128)%Z) p).
Proof. unfold chr_ascii. now rewrite chr_loop_spec. Qed.

Lemma string_of_list_byte_length (p : list byte) :
  String.length (string_of_list_byte p) = List.length p.
Proof.
  unfold string_of_list_byte. induction p as [|b r IH]; simpl; [reflexivity|].
  now rewrite IH.
Qed.

Lemma rstrip_after_nonspace (s t : string) (c : ascii) :
  isspace c = false ->
  rstrip (s ++ String c t) = (s ++ String c (rstrip t))%string.
Proof.
  intro N. induction s as [|a s IH]; simpl.
  - rewrite N. destruct (rstrip t); reflexivity.
  - rewrite IH. destruct s; reflexivity.
Qed.

Lemma rstrip_last_not_space (s : string) :
  forall s' c, rstrip s = (s' ++ String c "")%string -> isspace c = false.
Proof.
  induction s as [|a r IH]; intros s' c; simpl.
  - destruct s'; discriminate.
  - destruct (rstrip r) as [|b r'] eqn:E.
    + destruct (isspace a) eqn:Sa.
      * destruct s'; discriminate.
      * destruct s' as [|x s'']; simpl; intro H; inversion H; subst.
        -- exact Sa.
        -- destruct s''; discriminate.
    + destruct s' as [|x s'']; simpl; intro H; inversion H; subst.
      apply (IH s'' c). assumption.
Qed.

(** X8.  [UART_MESSAGE] carries every byte: the one emission, on the
    uart-message topic, holds the payload itself and a text with one character
    per payload byte, from which the payload is read back. *)
Theorem uart_message_text_holds_every_byte :
  forall (P : Protocol) (C : Collaborators) (p : list byte),
    well_numbered P = true ->
    bus_events (trace (handleUartMessage P C
                         {| opCode := rx P UartRxType.UART_MESSAGE; payload := p |}))
      = [Emit UartTopics_uartMessage
           (VDict [("string", VStr (chr_all p)); ("data", VBytes p)])]
    /\ list_byte_of_string (chr_all p) = p
    /\ String.length (chr_all p) = List.length p.
Proof.
  intros P C p WN. split.
  - rewrite handleUartMessage_bus_events. dispatch_member WN. reflexivity.
  - rewrite chr_all_spec. split.
    + apply list_byte_of_string_of_list_byte.
    + apply string_of_list_byte_length.
Qed.

Lemma uart_message_text_holds_every_byte_witness :
  list_byte_of_string (chr_all [x68; xe9; x0a]) = [x68; xe9; x0a].
Proof.
  assert (WN : well_numbered sample_protocol = true) by (vm_compute; reflexivity).
  exact (proj1 (proj2 (uart_message_text_holds_every_byte sample_protocol
                         sample_collaborators [x68; xe9; x0a] WN))).
Defined.

(** X9.  [ASCII_LOG] prints one line and touches neither the bus nor the
    logger.  The line is the header with the timestamp, always in full,
    followed by the payload text without the bytes of value 128 and above and
    without trailing white space; it never ends in a white-space character. *)
Theorem ascii_log_prints_one_stripped_line :
  forall (P : Protocol) (C : Collaborators) (p : list byte),
    well_numbered P = true ->
    handleUartMessage P C {| opCode := rx P UartRxType.ASCII_LOG; payload := p |}
      = ([Print (("ASCII LOG: [" ++ now C ++ "]")
                 ++ rstrip (" " ++ string_of_list_byte
                                     (filter (fun b => (byte_val b <? 128)%Z) p)))%string],
         Return tt)
    /\ (forall line' c,
           (("ASCII LOG: [" ++ now C ++ "]")
            ++ rstrip (" " ++ string_of_list_byte
                                (filter (fun b => (byte_val b <? 128)%Z) p)))%string
           = (line' ++ String c "")%string ->
           isspace c = false).
Proof.
  intros P C p WN.
  assert (E : rstrip ("ASCII LOG: [" ++ now C ++ "] " ++ chr_ascii p)
              = (("ASCII LOG: [" ++ now C ++ "]")
                 ++ rstrip (" " ++ string_of_list_byte
                                     (filter (fun b => (byte_val b <? 128)%Z) p)))%string).
  { rewrite chr_ascii_spec.
    change ("ASCII LOG: [" ++ now C ++ "] "
            ++ string_of_list_byte (filter (fun b => (byte_val b <? 128)%Z) p))%string
      with ("ASCII LOG: ["
            ++ (now C
                ++ String "]" (" " ++ string_of_list_byte
                                        (filter (fun b => (byte_val b <? 128)%Z) p))))%string.
    rewrite <- string_append_assoc.
    rewrite rstrip_after_nonspace by reflexivity.
    rewrite string_append_assoc.
    change ("ASCII LOG: [" ++ now C ++ "]")%string
      with ("ASCII LOG: [" ++ (now C ++ String "]" ""))%string.
    rewrite !string_append_assoc. reflexivity. }
  split.
  - unfold handleUartMessage. dispatch_member WN. unfold print.
    rewrite E. reflexivity.
  - intros line' c H. rewrite <- E in H.
    exact (rstrip_last_not_space _ _ _ H).
Qed.

Lemma ascii_log_prints_one_stripped_line_witness :
  handleUartMessage sample_protocol sample_collaborators
    (msg UartRxType.ASCII_LOG [x68; x69; xff; x20; x0a])
  = ([Print "ASCII LOG: [2021-06-01 12:00:00.000000] hi"], Return tt).
Proof.
  assert (WN : well_numbered sample_protocol = true) by (vm_compute; reflexivity).
  destruct (ascii_log_prints_one_stripped_line sample_protocol sample_collaborators
              [x68; x69; xff; x20; x0a] WN) as [E _].
  unfold msg. change (sample_rx UartRxType.ASCII_LOG)
    with (rx sample_protocol UartRxType.ASCII_LOG).
  rewrite E. vm_compute. reflexivity.
Defined.

(** X10.  A [MESH_RESULT] message with at least two payload bytes hands the
    payload without its first byte to the result-packet decoder; when that
    succeeds, the one emission, on the mesh-result topic, is the pair of the
    first byte (a number below 256) and the decoded packet; when it fails with
    a [CrownstoneException], nothing is emitted and one error is logged. *)
Theorem long_mesh_result_split :
  forall (P : Protocol) (C : Collaborators) (b b' : byte) (rest : list byte),
    well_numbered P = true ->
    (forall packet,
        ResultPacket C (b' :: rest) = Return packet ->
        bus_events (trace (handleUartMessage P C
           {| opCode := rx P UartRxType.MESH_RESULT; payload := b :: b' :: rest |}))
        = [Emit SystemTopics_meshResultPacket (VList [VInt (byte_val b); packet])])
    /\ (forall text,
           ResultPacket C (b' :: rest) = Raise (CrownstoneException text) ->
           handleUartMessage P C
             {| opCode := rx P UartRxType.MESH_RESULT; payload := b :: b' :: rest |}
           = ([Log ERROR "Parse error: " (DExn (CrownstoneException text))], Return tt))
    /\ 0 <= byte_val b < 256.
Proof.
  intros P C b b' rest WN.
  assert (G : (1 <? Z.of_nat (List.length (b :: b' :: rest))) = true).
  { apply Z.ltb_lt. simpl List.length. lia. }
  split; [|split].
  - intros packet D. rewrite handleUartMessage_bus_events.
    dispatch_member WN. rewrite G. unfold getitem, call, bind, emit.
    cbn [nth_error skipn fst snd]. rewrite D. cbn [fst snd].
    destruct (subscribers C _ _); reflexivity.
  - intros text D. unfold handleUartMessage.
    dispatch_member WN. rewrite G. unfold getitem, call, bind, emit.
    cbn [nth_error skipn fst snd]. rewrite D. reflexivity.
  - unfold byte_val. pose proof (Byte.to_N_bounded b) as B.
    split; lia.
Qed.

Lemma long_mesh_result_split_witness :
  bus_events (trace (handleUartMessage sample_protocol sample_collaborators
                       (msg UartRxType.MESH_RESULT [x05; x00; x01])))
  = [Emit SystemTopics_meshResultPacket
       (VList [VInt 5; VObj "ResultPacket" [("payload", VBytes [x00; x01])]])].
Proof.
  assert (WN : well_numbered sample_protocol = true) by (vm_compute; reflexivity).
  destruct (long_mesh_result_split sample_protocol sample_collaborators
              x05 x00 [x01] WN) as [H _].
  exact (H _ eq_refl).
Defined.

(* ========================================================================= *)
(** * Further properties of the connection supervisor *)

(* ------------------------------------------------------------------------- *)
(** ** The manager never raises *)




(* ------------------------------------------------------------------------- *)
(** ** Waiting for a device *)






(* ------------------------------------------------------------------------- *)
(** ** What a run of [initialize] looks like *)

Lemma bridges_walk_app (a b : list Event) :
  forall n,
    bridges_walk n (a ++ b)
    = match bridges_walk n a with
      | Some m => bridges_walk m b
      | None => None
      end.
Proof.
  induction a as [|e r IH]; intro n; [reflexivity|].
  destruct e; simpl; try apply IH.
  destruct n; [apply IH | reflexivity].
Qed.

Lemma ensured_app (a b : list Event) : ensured (a ++ b) = ensured a ++ ensured b.
Proof. unfold ensured. apply flat_map_app. Qed.

Lemma retried_app (a b : list Event) : retried (a ++ b) = retried a || retried b.
Proof. unfold retried. apply existsb_app. Qed.

(** The summary of a run only looks at the history, the active port, the
    cursor and the candidates of the state the run starts from. *)
Lemma run_summary_from (b : Z) (direct : option Device) (s0 s s' : UartManager) :
  history s0 = history s ->
  port s0 = port s ->
  _attemptingIndex s0 = _attemptingIndex s ->
  _availablePorts s0 = _availablePorts s ->
  run_summary b direct s0 s' ->
  run_summary b direct s s'.
Proof.
  intros Hh Hp Hi Ha (evs & H & Wk & En & Bd & Pn & Rd).
  exists evs. rewrite <- Hh, <- Hp, <- Hi, <- Ha.
  repeat split; assumption.
Qed.

(** After a retry, the run is summed up by the call that retried. *)
Lemma run_summary_after_retry (b : Z) (direct : option Device)
    (s s2 s' : UartManager) (block : list Event) :
  history s2 = history s ++ block ->
  bridges_walk 0 block = Some 0%nat ->
  ensured block = [] ->
  retried block = true ->
  (port s = None -> port s2 = None) ->
  run_summary default_baudrate None s2 s' ->
  run_summary b direct s s'.
Proof.
  intros Hh Hw He Hr Hp (evs & H & Wk & En & Bd & Pn & Rd).
  exists (block ++ evs).
  split; [rewrite H, Hh, app_assoc; reflexivity|].
  split; [rewrite bridges_walk_app, Hw; exact Wk|].
  split; [rewrite ensured_app, He; exact En|].
  split; [rewrite retried_app, Hr; simpl; rewrite Bd; destruct (retried evs); reflexivity|].
  split; [intro N; apply Pn, Hp, N|].
  intro R. destruct (Rd R) as (dev & Pd & Bg & [Nth|(D & _)]).
  - exists dev. repeat split; try assumption. left. exact Nth.
  - discriminate D.
Qed.

Lemma setupConnection_summary (W : World)
    (init : option Device -> Z -> UartManager -> Outcome)
    (dev : Device) (h : bool) (s s' : UartManager) :
  (forall s0 s1, init None default_baudrate s0 = Returned s1 ->
                 run_summary default_baudrate None s0 s1) ->
  setupConnection_with W init dev h s = Returned s' ->
  run_summary (baudRate s) (Some dev) s s'.
Proof.
  intros Hinit. unfold setupConnection_with.
  assert (Ok : forall evs s1,
             history s1 = history s ++ evs ->
             bridges_walk 0 (evs ++ [EvLogger INFO ("Connection established to " ++ dev);
                                     EvEnsureFuture TrackConnection]) = Some 1%nat ->
             ensured evs = [] -> retried evs = false ->
             baudRate s1 = baudRate s ->
             _uartBridge s1 = Some {| bridge_port := dev; bridge_baudRate := baudRate s |} ->
             _attemptingIndex s1 = _attemptingIndex s ->
             _availablePorts s1 = _availablePorts s ->
             run_summary (baudRate s) (Some dev) s
               (record [EvEnsureFuture TrackConnection]
                  (set_ready true
                     (set_port (Some dev)
                        (record [EvLogger INFO ("Connection established to " ++ dev)] s1))))).
  { intros evs s1 Hh Hw He Hr Hb Hg Hi Ha.
    exists (evs ++ [EvLogger INFO ("Connection established to " ++ dev);
                    EvEnsureFuture TrackConnection]).
    simpl. rewrite Hh, Hb, Hg, Hi, Ha, ensured_app, retried_app, He, Hr.
    split; [rewrite <- !app_assoc; reflexivity|].
    split; [exact Hw|].
    repeat (split; [reflexivity|]).
    intros _. exists dev. repeat split. right. repeat split. }
  destruct h; [destruct (handshake W _ dev) eqn:Hs|]; cbn [negb]; intro E.
  - inversion E; subst; clear E.
    apply (Ok [EvBridgeNew dev (baudRate s); EvBridgeStart dev; EvBridgeStarting dev;
               EvHandshake dev true]); try reflexivity.
    simpl. rewrite <- !app_assoc. reflexivity.
  - apply Hinit in E.
    refine (run_summary_after_retry (baudRate s) (Some dev) s _ s'
              [EvBridgeNew dev (baudRate s); EvBridgeStart dev; EvBridgeStarting dev;
               EvHandshake dev false; EvBridgeStop dev] _ _ _ _ _ E);
      try reflexivity.
    + simpl. rewrite <- !app_assoc. reflexivity.
    + simpl. intro N. exact N.
  - inversion E; subst; clear E.
    apply (Ok [EvBridgeNew dev (baudRate s); EvBridgeStart dev; EvBridgeStarting dev]);
      try reflexivity.
    simpl. rewrite <- !app_assoc. reflexivity.
Qed.

Lemma initialize_tail_summary (W : World)
    (init : option Device -> Z -> UartManager -> Outcome) (s s' : UartManager) :
  (forall s0 s1, init None default_baudrate s0 = Returned s1 ->
                 run_summary default_baudrate None s0 s1) ->
  ready s = false ->
  initialize_tail_with W init s = Returned s' ->
  run_summary (baudRate s) None s s'.
Proof.
  intros Hinit Hr. unfold initialize_tail_with. cbv zeta.
  set (s0 := match _trackingLoop s with
             | Some _ => s
             | None => set_trackingLoop (Some (get_running_loop W)) s
             end).
  assert (F : history s0 = history s /\ port s0 = port s
              /\ _attemptingIndex s0 = _attemptingIndex s
              /\ _availablePorts s0 = _availablePorts s
              /\ baudRate s0 = baudRate s /\ ready s0 = ready s)
    by (subst s0; destruct (_trackingLoop s); repeat split).
  destruct F as (Fh & Fp & Fi & Fa & Fb & Fr).
  destruct (port s0) as [d|] eqn:P0.
  - intro E. inversion E; subst s'; clear E.
    exists []. rewrite Fr, Hr, Fh, Fb, app_nil_r. repeat split.
    + intro N. rewrite <- Fp in N. discriminate N.
    + intro R. discriminate R.
  - destruct (List.length (_availablePorts s0) <=? _attemptingIndex s0)%nat.
    + intro E. apply Hinit in E.
      refine (run_summary_after_retry (baudRate s) None s _ s'
                [EvLogger DEBUG "No Crownstone USB connected? Retrying..."; EvSleep 1;
                 EvComports (comports W (enumerations s0))] _ _ _ _ _ E);
        try reflexivity.
      * unfold reset_fields, list_comports. simpl.
        rewrite Fh, <- !app_assoc. reflexivity.
    + unfold _attemptConnection_with.
      destruct (nth_error (_availablePorts s0) (_attemptingIndex s0)) as [dev|] eqn:N;
        [|discriminate].
      intro E.
      pose proof (setupConnection_summary W init dev true s0 s' Hinit E) as S.
      rewrite Fb in S.
      apply (run_summary_from (baudRate s) None s0 s s'); try assumption;
        try (rewrite P0; exact Fp).
      destruct S as (evs & H & Wk & En & Bd & Pn & Rd).
      exists evs. repeat (split; [assumption|]).
      intro R. destruct (Rd R) as (d & Pd & Bg & [Nth|(D & _ & Di & Da)]);
        exists d; repeat split; try assumption; left; try assumption.
      inversion D; subst d. rewrite Di, Da. exact N.
Qed.

(** With a port chosen, the second half of [initialize] leaves the manager as
    it is but for the tracking loop. *)
Lemma initialize_tail_noop (W : World)
    (init : option Device -> Z -> UartManager -> Outcome)
    (s : UartManager) (dev : Device) :
  port s = Some dev ->
  exists s',
    initialize_tail_with W init s = Returned s'
    /\ port s' = Some dev /\ ready s' = ready s
    /\ _uartBridge s' = _uartBridge s /\ history s' = history s
    /\ baudRate s' = baudRate s
    /\ _attemptingIndex s' = _attemptingIndex s
    /\ _availablePorts s' = _availablePorts s
    /\ running s' = running s.
Proof.
  intro Hport. unfold initialize_tail_with. cbv zeta.
  destruct (_trackingLoop s); simpl; rewrite Hport;
    eexists; (split; [reflexivity|]); simpl; repeat split; assumption.
Qed.

Lemma initialize_summary (W : World) :
  forall fuel port_arg b s s',
    initialize W fuel port_arg b s = Returned s' ->
    run_summary b port_arg s s'.
Proof.
  induction fuel as [|fuel IH]; intros port_arg b s s' E; [discriminate|].
  assert (Hinit : forall s0 s1,
             initialize W fuel None default_baudrate s0 = Returned s1 ->
             run_summary default_baudrate None s0 s1)
    by (intros s0 s1; apply IH).
  cbn [initialize] in E. unfold initialize_with in E. cbv beta zeta in E.
  destruct port_arg as [p|].
  - destruct (find_port p _ 0) as [index|] eqn:F.
    + destruct (find_port_nth _ _ _ _ F) as (k & -> & N).
      unfold _attemptConnection_with, setupConnection_with in E.
      simpl in N, E. rewrite N in E. cbn [negb] in E.
      match type of E with
      | initialize_tail_with _ _ ?s2 = _ =>
          destruct (initialize_tail_noop W (initialize W fuel) s2 p eq_refl)
            as (s3 & E3 & P3 & R3 & B3 & H3 & Bd3 & I3 & A3 & _)
      end.
      rewrite E3 in E. inversion E; subst s3; clear E E3.
      simpl in R3, B3, H3, Bd3, I3, A3.
      exists [EvBridgeNew p b; EvBridgeStart p; EvBridgeStarting p;
              EvLogger INFO ("Connection established to " ++ p);
              EvEnsureFuture TrackConnection].
      rewrite R3, H3, Bd3. simpl.
      split; [rewrite <- !app_assoc; reflexivity|].
      repeat (split; [reflexivity|]).
      intros _. exists p. rewrite B3, I3, A3.
      split; [exact P3|]. split; [reflexivity|]. left. exact N.
    + pose proof (setupConnection_summary W (initialize W fuel) p true
                    (set_ready false (set_baudRate b s)) s' Hinit E) as S.
      apply (run_summary_from b (Some p) _ s s' eq_refl eq_refl eq_refl eq_refl S).
  - pose proof (initialize_tail_summary W (initialize W fuel)
                  (set_ready false (set_baudRate b s)) s' Hinit eq_refl E) as S.
    apply (run_summary_from b None _ s s' eq_refl eq_refl eq_refl eq_refl S).
Qed.

(** X14.  One bridge at a time.  Along the events of a run of [initialize]
    that returns, a bridge is made only when the one made before it in the run
    has been stopped; at the end one bridge is open if the manager is ready and
    none otherwise. *)
Theorem one_bridge_at_a_time :
  forall (W : World) (fuel : nat) (port_arg : option Device) (baudrate : Z)
         (s s' : UartManager),
    initialize W fuel port_arg baudrate s = Returned s' ->
    exists evs,
      history s' = history s ++ evs
      /\ bridges_walk 0 evs = Some (if ready s' then 1%nat else 0%nat).
Proof.
  intros W fuel port_arg baudrate s s' E.
  destruct (initialize_summary W fuel port_arg baudrate s s' E)
    as (evs & H & Wk & _).
  exists evs. split; assumption.
Qed.

Lemma one_bridge_at_a_time_witness :
  exists evs,
    history connected_to_third = history (__init__ three_ports_world None) ++ evs
    /\ bridges_walk 0 evs = Some (if ready connected_to_third then 1%nat else 0%nat).
Proof.
  apply (one_bridge_at_a_time three_ports_world 3 None 230400).
  vm_compute. reflexivity.
Defined.

(** X15.  A retry forgets the baud rate of the caller.  When a run of
    [initialize(port, baudrate)] returns, the manager holds the given baud rate
    if the run went through without a failed handshake and without a backoff,
    and the default of 230400 otherwise; the bridge of a ready manager was
    made with the baud rate the manager holds. *)
Theorem retry_uses_default_baudrate :
  forall (W : World) (fuel : nat) (port_arg : option Device) (baudrate : Z)
         (s s' : UartManager),
    initialize W fuel port_arg baudrate s = Returned s' ->
    exists evs,
      history s' = history s ++ evs
      /\ baudRate s' = (if retried evs then default_baudrate else baudrate)
      /\ (ready s' = true ->
          exists dev,
            _uartBridge s'
            = Some {| bridge_port := dev; bridge_baudRate := baudRate s' |}).
Proof.
  intros W fuel port_arg baudrate s s' E.
  destruct (initialize_summary W fuel port_arg baudrate s s' E)
    as (evs & H & _ & _ & Bd & _ & Rd).
  exists evs. repeat split; try assumption.
  intro R. destruct (Rd R) as (dev & _ & Bg & _). exists dev. exact Bg.
Qed.

Lemma retry_uses_default_baudrate_witness :
  exists evs,
    history (returned_or (__init__ three_ports_world None)
               (initialize three_ports_world 3 None 115200
                  (__init__ three_ports_world None)))
    = history (__init__ three_ports_world None) ++ evs
    /\ baudRate (returned_or (__init__ three_ports_world None)
                   (initialize three_ports_world 3 None 115200
                      (__init__ three_ports_world None)))
       = (if retried evs then default_baudrate else 115200)
    /\ (ready (returned_or (__init__ three_ports_world None)
                 (initialize three_ports_world 3 None 115200
                    (__init__ three_ports_world None))) = true ->
        exists dev,
          _uartBridge (returned_or (__init__ three_ports_world None)
                         (initialize three_ports_world 3 None 115200
                            (__init__ three_ports_world None)))
          = Some {| bridge_port := dev;
                    bridge_baudRate :=
                      baudRate (returned_or (__init__ three_ports_world None)
                                  (initialize three_ports_world 3 None 115200
                                     (__init__ three_ports_world None))) |}).
Proof.
  apply (retry_uses_default_baudrate three_ports_world 3 None 115200
           (__init__ three_ports_world None)).
  vm_compute. reflexivity.
Defined.

(** X16.  [initialize] gives up only by not returning.  When a run on a
    manager without active port returns, the manager is ready and has an
    active port; there is no return that reports a failure. *)
Theorem initialize_returns_only_connected :
  forall (W : World) (fuel : nat) (port_arg : option Device) (baudrate : Z)
         (s s' : UartManager),
    port s = None ->
    initialize W fuel port_arg baudrate s = Returned s' ->
    ready s' = true /\ exists dev, port s' = Some dev.
Proof.
  intros W fuel port_arg baudrate s s' N E.
  destruct (initialize_summary W fuel port_arg baudrate s s' E)
    as (evs & _ & _ & _ & _ & Pn & Rd).
  pose proof (Pn N) as R. split; [exact R|].
  destruct (Rd R) as (dev & Pd & _). exists dev. exact Pd.
Qed.

Lemma initialize_returns_only_connected_witness :
  ready connected_to_third = true /\ exists dev, port connected_to_third = Some dev.
Proof.
  apply (initialize_returns_only_connected three_ports_world 3 None 230400
           (__init__ three_ports_world None)).
  - reflexivity.
  - vm_compute. reflexivity.
Defined.

(** X17.  One liveness watch per connection.  A run of [initialize] that
    returns has handed exactly one task to [asyncio.ensure_future], the
    liveness watch, if the manager is ready, and none otherwise: retries
    launch no watch of their own. *)
Theorem one_liveness_watch_per_run :
  forall (W : World) (fuel : nat) (port_arg : option Device) (baudrate : Z)
         (s s' : UartManager),
    initialize W fuel port_arg baudrate s = Returned s' ->
    exists evs,
      history s' = history s ++ evs
      /\ ensured evs = (if ready s' then [TrackConnection] else []).
Proof.
  intros W fuel port_arg baudrate s s' E.
  destruct (initialize_summary W fuel port_arg baudrate s s' E)
    as (evs & H & _ & En & _).
  exists evs. split; assumption.
Qed.

Lemma one_liveness_watch_per_run_witness :
  exists evs,
    history connected_to_third = history (__init__ three_ports_world None) ++ evs
    /\ ensured evs = (if ready connected_to_third then [TrackConnection] else []).
Proof.
  apply (one_liveness_watch_per_run three_ports_world 3 None 230400).
  vm_compute. reflexivity.
Defined.

(** X18.  The cursor points at the active port.  When a run of [initialize]
    returns ready, the active port is the candidate at the cursor, unless the
    run connected at once to a port given by the caller that is not among the
    candidates, in which case cursor and candidates are as they were. *)
Theorem cursor_points_at_active_port :
  forall (W : World) (fuel : nat) (port_arg : option Device) (baudrate : Z)
         (s s' : UartManager),
    initialize W fuel port_arg baudrate s = Returned s' ->
    ready s' = true ->
    exists dev,
      port s' = Some dev
      /\ (nth_error (_availablePorts s') (_attemptingIndex s') = Some dev
          \/ (port_arg = Some dev
              /\ _attemptingIndex s' = _attemptingIndex s
              /\ _availablePorts s' = _availablePorts s)).
Proof.
  intros W fuel port_arg baudrate s s' E R.
  destruct (initialize_summary W fuel port_arg baudrate s s' E)
    as (evs & _ & _ & _ & _ & _ & Rd).
  destruct (Rd R) as (dev & Pd & _ & [Nth|(D & _ & Di & Da)]); exists dev;
    (split; [exact Pd|]).
  - left. exact Nth.
  - right. repeat split; assumption.
Qed.

Lemma cursor_points_at_active_port_witness :
  exists dev,
    port connected_to_third = Some dev
    /\ (nth_error (_availablePorts connected_to_third)
          (_attemptingIndex connected_to_third) = Some dev
        \/ (None = Some dev
            /\ _attemptingIndex connected_to_third
               = _attemptingIndex (__init__ three_ports_world None)
            /\ _availablePorts connected_to_third
               = _availablePorts (__init__ three_ports_world None))).
Proof.
  apply (cursor_points_at_active_port three_ports_world 3 None 230400
           (__init__ three_ports_world None) connected_to_third).
  - vm_compute. reflexivity.
  - vm_compute. reflexivity.
Defined.

(** X19.  [initialize()] on a connected manager.  Called without a port while
    a port is active, [initialize] returns at once: it clears [ready] and sets
    the baud rate, and leaves port, bridge, cursor, candidates and running flag
    as they are and the outside untouched; so [is_ready()] is false although
    the bridge is still there. *)
Theorem initialize_on_connected_manager_only_clears_ready :
  forall (W : World) (fuel : nat) (baudrate : Z) (s : UartManager) (dev : Device),
    port s = Some dev ->
    exists s',
      initialize W (S fuel) None baudrate s = Returned s'
      /\ is_ready s' = false
      /\ port s' = Some dev
      /\ _uartBridge s' = _uartBridge s
      /\ baudRate s' = baudrate
      /\ _attemptingIndex s' = _attemptingIndex s
      /\ _availablePorts s' = _availablePorts s
      /\ running s' = running s
      /\ history s' = history s.
Proof.
  intros W fuel baudrate s dev Hport.
  cbn [initialize]. unfold initialize_with. cbv beta zeta.
  destruct (initialize_tail_noop W (initialize W fuel)
              (set_ready false (set_baudRate baudrate s)) dev Hport)
    as (s' & E & P & R & B & H & Bd & I & A & Rn).
  exists s'. unfold is_ready. simpl in R, B, H, Bd, I, A, Rn.
  repeat split; assumption.
Qed.

Lemma initialize_on_connected_manager_only_clears_ready_witness :
  exists s',
    initialize three_ports_world 1 None 230400 connected_to_third = Returned s'
    /\ is_ready s' = false
    /\ port s' = Some "/dev/ttyACM0".
Proof.
  assert (P : port connected_to_third = Some "/dev/ttyACM0")
    by (vm_compute; reflexivity).
  destruct (initialize_on_connected_manager_only_clears_ready three_ports_world 0
              230400 connected_to_third "/dev/ttyACM0" P)
    as (s' & E & R & Pt & _).
  exists s'. repeat split; assumption.
Defined.

(* ------------------------------------------------------------------------- *)
(** ** [stop] and [reset] *)

(** X20.  [stop] only clears the running flag and stops the bridge: it leaves
    [ready], port, bridge, cursor and candidates as they are, so [is_ready()]
    answers after [stop] what it answered before.  It calls [stop_sync] once
    if there is a bridge and never otherwise; a second [stop] changes no
    attribute and, the bridge still being there, calls [stop_sync] again. *)
Theorem stop_keeps_attributes :
  forall (s : UartManager),
    running (stop s) = false
    /\ is_ready (stop s) = is_ready s
    /\ port (stop s) = port s
    /\ _uartBridge (stop s) = _uartBridge s
    /\ _attemptingIndex (stop s) = _attemptingIndex s
    /\ _availablePorts (stop s) = _availablePorts s
    /\ history (stop s)
       = history s ++ match _uartBridge s with
                      | Some bridge => [EvBridgeStopSync (bridge_port bridge)]
                      | None => []
                      end
    /\ stop (stop s)
       = record match _uartBridge s with
                | Some bridge => [EvBridgeStopSync (bridge_port bridge)]
                | None => []
                end (stop s).
Proof.
  intro s. destruct s as [p b r tl ports idx [br|] rdy en hs h];
    unfold stop, is_ready, record; simpl; rewrite ?app_nil_r;
    repeat (split; [reflexivity|]); reflexivity.
Qed.

(** X21.  [reset] is a full restart: what it does depends neither on the port,
    the bridge, the cursor and the candidates the manager had, nor on its
    [ready] flag and baud rate.  Two managers that agree on the running flag,
    the tracking loop and what happened so far are reset alike. *)
Theorem reset_forgets_the_connection :
  forall (W : World) (fuel : nat) (s s0 : UartManager),
    running s = running s0 ->
    _trackingLoop s = _trackingLoop s0 ->
    enumerations s = enumerations s0 ->
    handshakes s = handshakes s0 ->
    history s = history s0 ->
    reset W fuel s = reset W fuel s0.
Proof.
  intros W fuel s s0 Hr Ht He Hh Hy. unfold reset.
  destruct fuel as [|fuel]; [reflexivity|].
  destruct s as [p b r tl ports idx br rdy en hs h].
  destruct s0 as [p0 b0 r0 tl0 ports0 idx0 br0 rdy0 en0 hs0 h0].
  simpl in Hr, Ht, He, Hh, Hy. subst r0 tl0 en0 hs0 h0.
  reflexivity.
Qed.

Lemma reset_forgets_the_connection_witness :
  reset three_ports_world 4 connected_to_third
  = reset three_ports_world 4
      (set_ready false (set_port None (set_uartBridge None
         (set_attemptingIndex 0 (set_availablePorts [] connected_to_third))))).
Proof.
  apply reset_forgets_the_connection; vm_compute; reflexivity.
Defined.
